(** * A shallow embedding of [real_estate_scraper.py]

    The scraper fetches search pages, follows the listing links found on
    them, extracts one record per listing page, filters it against the
    configured criteria and hands the accumulated records to a CSV sink.

    Scope of the model.  Text is ASCII: [lower], [strip] and the ZIP
    pattern classify bytes the way Python classifies the corresponding
    ASCII code points and leave every other byte alone.  Filter values
    range over [value] below (None, bool, int, str and the flat
    containers list, set, tuple, dict-keys view and generator); floats are
    not modelled.  The transport and parse collaborators are a function
    from URL to outcome ([requests_get]); a parsed document is the answers
    to the fixed queries the code asks of it.  The request headers and the
    results directory are constants; the creation of the directory by
    [__init__] is not traced. *)

From Stdlib Require Import ZArith Ascii String List Bool Lia.
From stdpp Require Import base option list gmap strings pretty.

Local Open Scope Z_scope.

(** ** Python values held in the filter dictionary *)

Inductive atom : Type :=
  | ANone
  | ABool (b : bool)
  | AInt (z : Z)
  | AStr (s : string).

Global Instance atom_eq_dec : EqDecision atom.
Proof. solve_decision. Defined.

Definition atom_encode (a : atom) : unit + bool + Z + string :=
  match a with
  | ANone => inl (inl (inl tt))
  | ABool b => inl (inl (inr b))
  | AInt z => inl (inr z)
  | AStr s => inr s
  end.

Definition atom_decode (x : unit + bool + Z + string) : atom :=
  match x with
  | inl (inl (inl _)) => ANone
  | inl (inl (inr b)) => ABool b
  | inl (inr z) => AInt z
  | inr s => AStr s
  end.

Global Instance atom_countable : Countable atom.
Proof.
  apply (inj_countable' atom_encode atom_decode).
  intros []; reflexivity.
Defined.

(** Containers hold atoms.  A list, tuple or dict-keys view is given by
    its items in order; a generator by the items it has not produced yet
    (it is the one value that iteration changes); a set by its elements.
    Python identifies [1] with [True] and [0] with [False] as set
    elements: a [gset] holding both stands for no Python set, and no
    statement below depends on such a set. *)
Inductive value : Type :=
  | VAtom (a : atom)
  | VList (items : list atom)
  | VSet (elems : gset atom)
  | VTuple (items : list atom)
  | VDictKeys (keys : list atom)
  | VGen (pending : list atom).

(** [str(x)] on an atom. *)
Definition py_str (a : atom) : string :=
  match a with
  | ANone => "None"
  | ABool true => "True"
  | ABool false => "False"
  | AInt z => pretty z
  | AStr s => s
  end.

(** Truth value of an object, as [if x:] and [x and ...] test it. *)
Definition truthy (v : value) : bool :=
  match v with
  | VAtom ANone => false
  | VAtom (ABool b) => b
  | VAtom (AInt z) => negb (z =? 0)
  | VAtom (AStr s) => negb (String.eqb s "")
  | VList l | VTuple l | VDictKeys l => negb (bool_decide (l = []))
  | VSet s => negb (bool_decide (s = ∅))
  | VGen _ => true
  end.

(** ** Text helpers: [in] on strings, [str.lower], [str.strip] *)

Fixpoint is_prefix (k s : string) : bool :=
  match k, s with
  | EmptyString, _ => true
  | String a k', String b s' => if Ascii.eqb a b then is_prefix k' s' else false
  | String _ _, EmptyString => false
  end.

(** [k in s] for two strings. *)
Fixpoint is_substring (k s : string) : bool :=
  is_prefix k s ||
  match s with
  | EmptyString => false
  | String _ s' => is_substring k s'
  end.

Definition code (c : ascii) : nat := nat_of_ascii c.

Definition is_upper (c : ascii) : bool :=
  (Nat.leb 65 (code c) && Nat.leb (code c) 90)%bool.

Definition lower_char (c : ascii) : ascii :=
  if is_upper c then ascii_of_nat (code c + 32) else c.

Fixpoint lower (s : string) : string :=
  match s with
  | EmptyString => EmptyString
  | String c s' => String (lower_char c) (lower s')
  end.

(** Whitespace removed by [str.strip()]: TAB, LF, VT, FF, CR, the four
    separators FS, GS, RS, US, and the space. *)
Definition is_space (c : ascii) : bool :=
  ((Nat.leb 9 (code c) && Nat.leb (code c) 13)
   || (Nat.leb 28 (code c) && Nat.leb (code c) 32))%bool.

Fixpoint lstrip (s : string) : string :=
  match s with
  | EmptyString => EmptyString
  | String c s' => if is_space c then lstrip s' else s
  end.

Fixpoint rstrip (s : string) : string :=
  match s with
  | EmptyString => EmptyString
  | String c s' =>
      match rstrip s' with
      | EmptyString => if is_space c then EmptyString else String c EmptyString
      | r => String c r
      end
  end.

Definition strip (s : string) : string := rstrip (lstrip s).

(** ** The ZIP pattern [\b(\d{5})\b] *)

Definition is_digit (c : ascii) : bool :=
  (Nat.leb 48 (code c) && Nat.leb (code c) 57)%bool.

(** [\w]: letters, digits and the underscore. *)
Definition is_word (c : ascii) : bool :=
  (is_digit c || is_upper c
   || (Nat.leb 97 (code c) && Nat.leb (code c) 122)
   || Nat.eqb (code c) 95)%bool.

(** The pattern matched at the head of [s]: five digits, then the end of
    the text or a non-word character. *)
Definition five_digits_here (s : string) : option string :=
  match s with
  | String a (String b (String c (String d (String e rest)))) =>
      if (is_digit a && is_digit b && is_digit c && is_digit d && is_digit e)%bool
      then
        match rest with
        | EmptyString => Some (String a (String b (String c (String d (String e EmptyString)))))
        | String f _ =>
            if is_word f then None
            else Some (String a (String b (String c (String d (String e EmptyString)))))
        end
      else None
  | _ => None
  end.

(** [re.search]: leftmost match; [prev_word] says whether the character
    before the head of [s] is a word character (no boundary there). *)
Fixpoint search_zip (prev_word : bool) (s : string) : option string :=
  match s with
  | EmptyString => None
  | String c s' =>
      match (if prev_word then None else five_digits_here s) with
      | Some z => Some z
      | None => search_zip (is_word c) s'
      end
  end.

(** ** Parsed documents, listings and the outside world *)

(** A parsed page, as far as the scraper queries it: the text of the
    first element matching each locator ([None] when [soup.find] finds
    nothing) and, for [find_all('a', class_='listing-link')], the [href]
    attribute of every anchor in document order ([None] for an anchor
    without one). *)
Record soup : Type := Soup {
  h1_listing_title : option string;
  div_price : option string;
  span_bedrooms : option string;
  span_bathrooms : option string;
  span_sqft : option string;
  div_address : option string;
  div_description : option string;
  a_listing_link : list (option string)
}.

(** Outcome of [requests.get]: an exception of the transport, or a
    response with its status code and (parsed) body. *)
Inductive http_result : Type :=
  | TransportFault
  | Response (status : Z) (body : soup).

(** The dictionary built by [scrape_listing]; its key set is fixed. *)
Record listing : Type := Listing {
  title : string;
  price : string;
  bedrooms : string;
  bathrooms : string;
  sqft : string;
  address : string;
  zip_code : string;
  wheelchair_accessible : bool;
  section_8_accepted : bool;
  description : string;
  url : string
}.

Record datetime : Type := DateTime {
  year : nat; month : nat; day : nat;
  hour : nat; minute : nat; second : nat; microsecond : nat
}.

(** What a run does to the outside: requests, pauses, log records and
    the CSV file.  Log records keep what they are about, not the text of
    the exception. *)
Inductive event : Type :=
  | EGet (target : string)
  | ESleep (seconds : Z)
  | EWarnUnknownFilter (key : string)
  | EErrorListing (target : string)
  | EErrorPage (page : Z)
  | EWarnNoListings
  | EToCsv (filename : string) (rows : list listing)
  | EInfo (message : string).

(** ** Attribute classifiers *)

Definition accessibility_indicators : list string :=
  [ "wheelchair accessible"; "ada compliant"; "handicap accessible";
    "accessible unit"; "accessibility features" ]%string.

Definition section8_indicators : list string :=
  [ "section 8"; "section 8 accepted"; "section 8 welcome";
    "housing choice voucher"; "hcv welcome" ]%string.

(** [any(indicator in text for indicator in indicators)] *)
Definition any_in (indicators : list string) (text : string) : bool :=
  existsb (fun indicator => is_substring indicator text) indicators.

Definition is_wheelchair_accessible (page : soup) : bool :=
  match div_description page with
  | Some text => any_in accessibility_indicators (lower text)
  | None => false
  end.

Definition accepts_section_8 (page : soup) : bool :=
  match div_description page with
  | Some text => any_in section8_indicators (lower text)
  | None => false
  end.

Definition extract_zip_code (page : soup) : string :=
  match div_address page with
  | Some text =>
      match search_zip false (strip text) with
      | Some z => z
      | None => ""
      end
  | None => ""
  end.

(** ** The scraper's monad: the filter dictionary as state, exceptions,
    and the trace of events *)

Inductive result (A : Type) : Type :=
  | Ok (a : A)
  | Raised.
Arguments Ok {A} a.
Arguments Raised {A}.

Definition M (A : Type) : Type :=
  gmap string value -> result A * gmap string value * list event.

Definition ret {A} (a : A) : M A := fun fs => (Ok a, fs, []).

Definition bind {A B} (m : M A) (k : A -> M B) : M B := fun fs =>
  match m fs with
  | (Ok a, fs1, t1) =>
      match k a fs1 with
      | (r, fs2, t2) => (r, fs2, t1 ++ t2)
      end
  | (Raised, fs1, t1) => (Raised, fs1, t1)
  end.

Definition raise {A} : M A := fun fs => (Raised, fs, []).

Definition emit (e : event) : M unit := fun fs => (Ok tt, fs, [e]).

(** [try: body / except Exception: handler] *)
Definition try_except {A} (body handler : M A) : M A := fun fs =>
  match body fs with
  | (Ok a, fs1, t1) => (Ok a, fs1, t1)
  | (Raised, fs1, t1) =>
      match handler fs1 with
      | (r, fs2, t2) => (r, fs2, t1 ++ t2)
      end
  end.

(** [self.filters[key]]: [KeyError] when the key is absent. *)
Definition get_filter (key : string) : M value := fun fs =>
  match fs !! key with
  | Some v => (Ok v, fs, [])
  | None => (Raised, fs, [])
  end.

Definition put_filter (key : string) (v : value) : M unit := fun fs =>
  (Ok tt, <[key := v]> fs, []).

Declare Scope scraper_scope.
Delimit Scope scraper_scope with scraper.
Notation "'let*' x ':=' m 'in' k" := (bind m (fun x => k))
  (at level 10, x name, m at level 100, k at level 200) : scraper_scope.
Notation "m '>>' k" := (bind m (fun _ => k))
  (at level 61, left associativity) : scraper_scope.
Local Open Scope scraper_scope.

Definition result_of {A} (o : result A * gmap string value * list event) : result A := o.1.1.
Definition filters_of {A} (o : result A * gmap string value * list event) : gmap string value := o.1.2.
Definition trace_of {A} (o : result A * gmap string value * list event) : list event := o.2.

(** ** The scraper *)

(** [RealEstateScraper.__init__]: the initial filter dictionary. *)
Definition init_filters : gmap string value :=
  <["min_price" := VAtom ANone]>
  (<["max_price" := VAtom ANone]>
  (<["min_bedrooms" := VAtom ANone]>
  (<["max_bedrooms" := VAtom ANone]>
  (<["property_type" := VAtom ANone]>
  (<["zip_codes" := VSet ∅]>
  (<["wheelchair_accessible" := VAtom (ABool false)]>
  (<["section_8_accepted" := VAtom (ABool false)]>
  (<["min_sqft" := VAtom ANone]>
  (<["max_sqft" := VAtom ANone]> ∅))))))))).

Definition results_dir : string := "scraping_results".

(** [set(str(zip_code) for zip_code in value)] *)
Definition set_of_strs (items : list atom) : value :=
  VSet (list_to_set ((fun a => AStr (py_str a)) <$> items)).

(** The value [set_filters] stores under [key]: a list or a set given for
    ['zip_codes'] is turned into a set of strings, anything else is kept
    as it is. *)
Definition stored_value (key : string) (v : value) : value :=
  if String.eqb key "zip_codes" then
    match v with
    | VList items => set_of_strs items
    | VSet elems => set_of_strs (elements elems)
    | _ => v
    end
  else v.

Fixpoint set_filters (kwargs : list (string * value)) : M unit :=
  match kwargs with
  | [] => ret tt
  | (key, v) :: rest =>
      (fun fs =>
         if decide (is_Some (fs !! key))
         then put_filter key (stored_value key v) fs
         else emit (EWarnUnknownFilter key) fs)
      >> set_filters rest
  end.

(** Iterating a string yields its characters, as strings of length one. *)
Fixpoint chars (s : string) : list atom :=
  match s with
  | EmptyString => []
  | String c s' => AStr (String c EmptyString) :: chars s'
  end.

Definition as_strs (items : list atom) : option (list string) :=
  mapM (fun a => match a with AStr s => Some s | _ => None end) items.

(** [x in gen]: the generator is advanced up to and including the first
    item equal to [x], or exhausted. *)
Fixpoint gen_contains (x : atom) (pending : list atom) : bool * list atom :=
  match pending with
  | [] => (false, [])
  | y :: rest => if decide (x = y) then (true, rest) else gen_contains x rest
  end.

Section Scraper.

(** The transport and parse collaborators: what a GET of a URL gives. *)
Variable requests_get : string -> http_result.

(** The Python runtime: the text [f"{x}"] gives for a container (built
    from [repr], and for a generator from its address), and the order in
    which a set is iterated. *)
Variable repr_container : value -> string.
Variable set_iter : gset atom -> list atom.

Definition format_value (v : value) : string :=
  match v with
  | VAtom a => py_str a
  | _ => repr_container v
  end.

(** [sep.join(self.filters[key])]: a generator is consumed whole, and
    every item has to be a string. *)
Definition join_filter (sep key : string) : M string :=
  let* v := get_filter key in
  let* items :=
    match v with
    | VAtom (AStr s) => ret (chars s)
    | VAtom _ => raise
    | VList l | VTuple l | VDictKeys l => ret l
    | VSet s => ret (set_iter s)
    | VGen l => put_filter key (VGen []) >> ret l
    end in
  match as_strs items with
  | Some strs => ret (String.concat sep strs)
  | None => raise
  end.

(** [x in self.filters[key]] for a string [x]. *)
Definition filter_contains (key x : string) : M bool :=
  let* v := get_filter key in
  match v with
  | VAtom (AStr s) => ret (is_substring x s)
  | VAtom _ => raise
  | VList l | VTuple l | VDictKeys l => ret (bool_decide (AStr x ∈ l))
  | VSet s => ret (bool_decide (AStr x ∈ s))
  | VGen l =>
      let '(found, rest) := gen_contains (AStr x) l in
      put_filter key (VGen rest) >> ret found
  end.

Definition base_url : string := "https://example-real-estate-site.com/search?".

Definition build_search_url : M string :=
  let params := [] in
  let* zip_codes := get_filter "zip_codes" in
  let* params :=
    if truthy zip_codes then
      let* zip_codes_str := join_filter "," "zip_codes" in
      ret (params ++ ["zip_codes=" +:+ zip_codes_str])
    else ret params in
  let* min_price := get_filter "min_price" in
  let params :=
    if truthy min_price then params ++ ["price_from=" +:+ format_value min_price]
    else params in
  let* max_price := get_filter "max_price" in
  let params :=
    if truthy max_price then params ++ ["price_to=" +:+ format_value max_price]
    else params in
  let* wheelchair := get_filter "wheelchair_accessible" in
  let params := if truthy wheelchair then params ++ ["wheelchair=true"] else params in
  let* section8 := get_filter "section_8_accepted" in
  let params := if truthy section8 then params ++ ["section8=true"] else params in
  ret (base_url +:+ String.concat "&" params).

(** [requests.get], [raise_for_status] (4xx and 5xx raise) and the
    parse of the body. *)
Definition fetch (target : string) : M soup :=
  emit (EGet target) >>
  match requests_get target with
  | TransportFault => raise
  | Response status body =>
      if ((400 <=? status) && (status <? 600))%bool then raise else ret body
  end.

(** [soup.find(...).text.strip()]: [AttributeError] on [None]. *)
Definition text_strip (found : option string) : M string :=
  match found with
  | Some text => ret (strip text)
  | None => raise
  end.

(** Lines 134-158 of [scrape_listing]: the accessibility and Section 8
    gate, the construction of [listing_data] and the ZIP check, on the
    parsed page. *)
Definition check_and_extract (target : string) (page : soup) : M (option listing) :=
  let* wheelchair := get_filter "wheelchair_accessible" in
  if (truthy wheelchair && negb (is_wheelchair_accessible page))%bool then ret None
  else
  let* section8 := get_filter "section_8_accepted" in
  if (truthy section8 && negb (accepts_section_8 page))%bool then ret None
  else
  let* title := text_strip (h1_listing_title page) in
  let* price := text_strip (div_price page) in
  let* bedrooms := text_strip (span_bedrooms page) in
  let* bathrooms := text_strip (span_bathrooms page) in
  let* sqft := text_strip (span_sqft page) in
  let* address := text_strip (div_address page) in
  let zip_code := extract_zip_code page in
  let wheelchair_accessible := is_wheelchair_accessible page in
  let section_8_accepted := accepts_section_8 page in
  let* description := text_strip (div_description page) in
  let listing_data :=
    Listing title price bedrooms bathrooms sqft address zip_code
            wheelchair_accessible section_8_accepted description target in
  let* zip_codes := get_filter "zip_codes" in
  if truthy zip_codes then
    let* present := filter_contains "zip_codes" zip_code in
    if negb present then ret None else ret (Some listing_data)
  else ret (Some listing_data).

Definition scrape_listing (target : string) : M (option listing) :=
  try_except
    (let* page := fetch target in check_and_extract target page)
    (emit (EErrorListing target) >> ret None).

(** [for url in listing_urls]: a listing is appended when
    [scrape_listing] returns a dictionary (which is never empty). *)
Fixpoint scrape_links (listing_urls : list string) (all_listings : list listing)
  : M (list listing) :=
  match listing_urls with
  | [] => ret all_listings
  | target :: rest =>
      let* listing_data := scrape_listing target in
      match listing_data with
      | Some l => scrape_links rest (all_listings ++ [l])
      | None => scrape_links rest all_listings
      end
  end.

(** [[a['href'] for a in soup.find_all('a', class_='listing-link')]]:
    [KeyError] on an anchor without [href]. *)
Fixpoint hrefs (anchors : list (option string)) : M (list string) :=
  match anchors with
  | [] => ret []
  | Some h :: rest => let* hs := hrefs rest in ret (h :: hs)
  | None :: _ => raise
  end.

Definition page_url (base : string) (page : Z) : string :=
  base +:+ "&page=" +:+ pretty page.

(** The first half of the body of the page loop: the search URL, the
    fetch of the search page and the links found on it. *)
Definition discover_links (page : Z) : M (list string) :=
  let* base := build_search_url in
  let* doc := fetch (page_url base page) in
  hrefs (a_listing_link doc).

(** The body of the [try] of one iteration of the page loop. *)
Definition scrape_page (page : Z) (all_listings : list listing) : M (list listing) :=
  let* listing_urls := discover_links page in
  let* all_listings := scrape_links listing_urls all_listings in
  emit (ESleep 2) >> ret all_listings.

(** [for page in range(page, page + remaining)], with [break] in the
    handler.  An exception can only come from the discovery of the links,
    before anything is appended ([scrape_listing] catches its own), so
    the list at the [break] is the list the iteration started with. *)
Fixpoint page_loop (remaining : nat) (page : Z) (all_listings : list listing)
  : M (list listing) :=
  match remaining with
  | O => ret all_listings
  | S remaining' =>
      let* step :=
        try_except
          (let* ls := scrape_page page all_listings in ret (Some ls))
          (emit (EErrorPage page) >> ret None) in
      match step with
      | Some ls => page_loop remaining' (page + 1) ls
      | None => ret all_listings
      end
  end.

Definition scrape_listings (max_pages : Z) : M (list listing) :=
  page_loop (Z.to_nat max_pages) 1 [].

End Scraper.

(** ** The result sink *)

Definition digit_char (d : nat) : ascii := ascii_of_nat (48 + d).

(** [n] in decimal on exactly [width] digits, zero-padded; the fields of
    a time that is [valid_datetime] fit. *)
Fixpoint zero_pad (width n : nat) : string :=
  match width with
  | O => EmptyString
  | S w => zero_pad w (n / 10) +:+ String (digit_char (n mod 10)) EmptyString
  end.

(** [strftime('%Y%m%d_%H%M%S')] *)
Definition strftime (t : datetime) : string :=
  zero_pad 4 (year t) +:+ zero_pad 2 (month t) +:+ zero_pad 2 (day t) +:+ "_"
  +:+ zero_pad 2 (hour t) +:+ zero_pad 2 (minute t) +:+ zero_pad 2 (second t).

(** The range of the fields of a [datetime] object, for a year of four
    digits (where [%Y] is the plain decimal on every platform). *)
Definition valid_datetime (t : datetime) : Prop :=
  (1000 <= year t < 100 * 100 /\ 1 <= month t <= 12 /\ 1 <= day t <= 31
   /\ hour t < 24 /\ minute t < 60 /\ second t < 60
   /\ microsecond t < 1000 * 1000)%nat.

Definition csv_filename (now : datetime) : string :=
  results_dir +:+ "/miami_listings_" +:+ strftime now +:+ ".csv".

(** [save_results], called at local time [now]. *)
Definition save_results (now : datetime) (listings : list listing) : M unit :=
  match listings with
  | [] => emit EWarnNoListings
  | _ :: _ =>
      let filename := csv_filename now in
      emit (EToCsv filename listings) >>
      emit (EInfo ("Results saved to " +:+ filename))
  end.

(** ** The entry point *)

Definition MIAMI_ZIP_CODES : list (string * string) :=
  [ ("33125", "Little Havana");
    ("33127", "Design District/Midtown");
    ("33128", "Downtown Miami");
    ("33130", "Brickell");
    ("33131", "Brickell/Downtown");
    ("33132", "Downtown Miami/Port of Miami");
    ("33133", "Coconut Grove");
    ("33134", "Coral Gables");
    ("33135", "Little Havana/West Miami");
    ("33136", "Overtown/Health District");
    ("33137", "Design District/Upper Eastside");
    ("33138", "Upper Eastside/Miami Shores") ]%string.

(** [MIAMI_ZIP_CODES.keys()] *)
Definition miami_keys : list string := fst <$> MIAMI_ZIP_CODES.

Definition main_kwargs : list (string * value) :=
  [ ("min_price", VAtom (AInt 1000));
    ("max_price", VAtom (AInt 3000));
    ("min_bedrooms", VAtom (AInt 1));
    ("max_bedrooms", VAtom (AInt 3));
    ("property_type", VAtom (AStr "apartment"));
    ("zip_codes", VDictKeys (AStr <$> miami_keys));
    ("wheelchair_accessible", VAtom (ABool true));
    ("section_8_accepted", VAtom (ABool true));
    ("min_sqft", VAtom (AInt 600));
    ("max_sqft", VAtom (AInt 1500)) ]%string.

Section Main.

Variable requests_get : string -> http_result.
Variable repr_container : value -> string.
Variable set_iter : gset atom -> list atom.

(** Lines 236-243 of [main]: the run proper, with the page budget as a
    parameter; [save_results] runs at local time [now]. *)
Definition scrape_and_save (max_pages : Z) (now : datetime) : M unit :=
  emit (EInfo "Starting scraping process...") >>
  emit (EInfo ("Searching in ZIP codes: " +:+ String.concat ", " miami_keys)) >>
  let* listings := scrape_listings requests_get repr_container set_iter max_pages in
  save_results now listings >>
  emit (EInfo ("Scraping completed! Found " +:+ pretty (length listings)
               +:+ " matching listings")).

(** [main()], on a fresh scraper. *)
Definition main (now : datetime) : M unit :=
  set_filters main_kwargs >> scrape_and_save 10 now.

End Main.

(** ** Vocabulary of the statements *)

(** [k] occurs in [s] as a substring. *)
Definition occurs_in (k s : string) : Prop :=
  exists pre post, s = pre +:+ k +:+ post.

(** The filter dictionary is not changed by a run: the ZIP filter is not
    a generator that still has items to produce. *)
Definition stable (fs : gmap string value) : Prop :=
  forall x pending, fs !! "zip_codes" <> Some (VGen (x :: pending)).

(** A computation that neither changes the filters nor leaves a trace. *)
Definition quiet {A} (m : M A) (fs : gmap string value) : Prop :=
  exists r, m fs = (r, fs, []).

(** A set all of whose elements are strings. *)
Definition set_of_strings (v : value) : Prop :=
  match v with
  | VSet elems => forall a, a ∈ elems -> exists s, a = AStr s
  | _ => False
  end.

(** One keyword argument of [set_filters], as a change of the
    dictionary. *)
Definition set_filter (fs : gmap string value) (kv : string * value) : gmap string value :=
  if decide (is_Some (fs !! kv.1)) then <[kv.1 := stored_value kv.1 kv.2]> fs else fs.

(** The requests of a trace, in order. *)
Definition gets (t : list event) : list string :=
  omap (fun e => match e with EGet u => Some u | _ => None end) t.

(** The files written by a trace, in order. *)
Definition written (t : list event) : list (string * list listing) :=
  omap (fun e => match e with EToCsv f rows => Some (f, rows) | _ => None end) t.

(** A status on which [raise_for_status] does not raise. *)
Definition status_ok (status : Z) : Prop := ~ (400 <= status < 600).

(** The second-resolution part of a time. *)
Definition to_the_second (t : datetime) : nat * nat * nat * nat * nat * nat :=
  (year t, month t, day t, hour t, minute t, second t).

Section Vocabulary.

Variable requests_get : string -> http_result.
Variable repr_container : value -> string.
Variable set_iter : gset atom -> list atom.

(** What [scrape_listing] returns for a link under given filters. *)
Definition accepted (fs : gmap string value) (target : string) : option listing :=
  match result_of (scrape_listing requests_get target fs) with
  | Ok r => r
  | Raised => None
  end.

(** The search page [page] is fetched without fault and shows exactly
    the links [links], in this order. *)
Definition page_shows (base : string) (page : Z) (links : list string) : Prop :=
  exists status doc,
    requests_get (page_url base page) = Response status doc
    /\ status_ok status
    /\ a_listing_link doc = Some <$> links.

(** The pages 1, 2, ... show the link sequences [pages]. *)
Definition pages_show (base : string) (first : Z) (pages : list (list string)) : Prop :=
  forall (i : nat) links,
    pages !! i = Some links -> page_shows base (first + Z.of_nat i) links.

(** The requests of a run over the pages [pages], starting at number
    [page]: page-major, link-minor. *)
Fixpoint visit_order (base : string) (page : Z) (pages : list (list string)) : list string :=
  match pages with
  | [] => []
  | links :: rest => page_url base page :: links ++ visit_order base (page + 1) rest
  end.

(** The fetch of a search page fails: transport fault or error status. *)
Definition page_faults (base : string) (page : Z) : Prop :=
  match requests_get (page_url base page) with
  | TransportFault => True
  | Response status _ => 400 <= status < 600
  end.

End Vocabulary.

(** ** A small site, for the examples

    Page 1 of any search lists five links: [/a] (ZIP 33131, accessible,
    Section 8), [/b] (ZIP 33125), [/c] (no description element), [/d]
    (answers 404) and [/e] (no ZIP in the address).  Page 2 is a
    parameter; every other URL is a transport fault. *)

Definition ends_with (suffix s : string) : bool :=
  is_prefix (String.rev suffix) (String.rev s).

Definition demo_listing (addr : string) (desc : option string) : soup :=
  Soup (Some "  Sunny flat ") (Some "$1,500/mo") (Some "2 bd") (Some "1 ba")
       (Some "850 sqft") (Some addr) desc [].

Definition demo_search (links : list string) : soup :=
  Soup None None None None None None None (Some <$> links).

Definition demo_site (page2 : http_result) (target : string) : http_result :=
  if (is_prefix base_url target && ends_with "&page=1" target)%bool then
    Response 200 (demo_search ["/a"; "/b"; "/c"; "/d"; "/e"])
  else if (is_prefix base_url target && ends_with "&page=2" target)%bool then page2
  else if String.eqb target "/a" then
    Response 200 (demo_listing "12 Brickell Ave, Miami, FL 33131"
                    (Some "Wheelchair Accessible unit. Section 8 Welcome!"))
  else if String.eqb target "/b" then
    Response 200 (demo_listing "7 Calle Ocho, Miami, FL 33125" (Some "Cozy."))
  else if String.eqb target "/c" then
    Response 200 (demo_listing "1 Grand Ave, Miami, FL 33133" None)
  else if String.eqb target "/d" then
    Response 404 (demo_search [])
  else if String.eqb target "/e" then
    Response 200 (demo_listing "Suite 1234567, Miami" (Some "ADA compliant"))
  else if String.eqb target "/f" then
    Response 200 (demo_listing "3 Main Hwy, Miami, FL 33133-1234" (Some "hcv welcome"))
  else TransportFault.

Definition demo_page2 : http_result := Response 200 (demo_search ["/f"; "/a"]).

(** Filters of the example runs: only ZIP 33131 allowed. *)
Definition only_33131 : gmap string value :=
  <["zip_codes" := VSet {[ AStr "33131" ]}]> init_filters.

(** Filters of the example runs: wheelchair accessibility required. *)
Definition wheelchair_required : gmap string value :=
  <["wheelchair_accessible" := VAtom (ABool true)]> init_filters.

Definition listing_a : listing :=
  Listing "Sunny flat" "$1,500/mo" "2 bd" "1 ba" "850 sqft"
          "12 Brickell Ave, Miami, FL 33131" "33131" true true
          "Wheelchair Accessible unit. Section 8 Welcome!" "/a".

Definition listing_b : listing :=
  Listing "Sunny flat" "$1,500/mo" "2 bd" "1 ba" "850 sqft"
          "7 Calle Ocho, Miami, FL 33125" "33125" false false "Cozy." "/b".

Definition listing_e : listing :=
  Listing "Sunny flat" "$1,500/mo" "2 bd" "1 ba" "850 sqft"
          "Suite 1234567, Miami" "" true false "ADA compliant" "/e".

Definition listing_f : listing :=
  Listing "Sunny flat" "$1,500/mo" "2 bd" "1 ba" "850 sqft"
          "3 Main Hwy, Miami, FL 33133-1234" "33133" false true "hcv welcome" "/f".

Definition no_repr (v : value) : string := "".

Definition demo_links : list string := ["/a"; "/b"; "/c"; "/d"; "/e"].

Definition demo_now : datetime := DateTime 2024 1 2 3 4 5 678.
Definition demo_later : datetime := DateTime 2024 1 2 3 4 5 999.

(** ** Vocabulary of the further properties *)

(** The keys of [kwargs] that [fs] does not know, in order. *)
Definition unknown_keys (fs : gmap string value) (kwargs : list (string * value)) : list string :=
  filter (fun k => k ∉ dom fs) kwargs.*1.




(** Every event a computation leaves satisfies [P], whatever the filters. *)
Definition emits_only {A} (P : event -> Prop) (m : M A) : Prop :=
  forall fs, Forall P (trace_of (m fs)).

(** A computation that never raises, whatever the filters. *)
Definition returns {A} (m : M A) : Prop :=
  forall fs, exists a, result_of (m fs) = Ok a.

Definition not_csv (e : event) : Prop :=
  match e with
  | EToCsv _ _ => False
  | _ => True
  end.

Definition no_event (e : event) : Prop := False.

(** The files a run writes when it has the listings [ls] to save. *)
Definition expected_files (now : datetime) (ls : list listing)
  : list (string * list listing) :=
  match ls with
  | [] => []
  | _ :: _ => [(csv_filename now, ls)]
  end.

(** A second search page whose last anchor has no [href]. *)
Definition demo_page2_broken : http_result :=
  Response 200 (Soup None None None None None None None [Some "/f"; None; Some "/a"]).

(** Filters whose ZIP filter is a tuple of integers. *)
Definition tuple_of_ints : gmap string value :=
  <["zip_codes" := VTuple [AInt 33131; AInt 33125]]> init_filters.

(** Filters whose ZIP filter is a generator of two ZIP codes. *)
Definition generator_of_zips : gmap string value :=
  <["zip_codes" := VGen [AStr "33131"; AStr "33125"]]> init_filters.

(** A filter value that is a sequence of items: a list, a tuple or a
    dict-keys view. *)
Definition sequence_of (v : value) : option (list atom) :=
  match v with
  | VList l | VTuple l | VDictKeys l => Some l
  | _ => None
  end.

(** Two filter dictionaries hold the same under each of the keys [keys]. *)
Definition agree_on (keys : list string) (fs1 fs2 : gmap string value) : Prop :=
  forall k, k ∈ keys -> fs1 !! k = fs2 !! k.

(** A computation that looks at the filters under [keys] only: from
    dictionaries that agree there it gives the same result and the same
    trace, and leaves dictionaries that agree there. *)
Definition reads_only {A} (keys : list string) (m : M A) : Prop :=
  forall fs1 fs2,
    agree_on keys fs1 fs2 ->
    result_of (m fs1) = result_of (m fs2)
    /\ trace_of (m fs1) = trace_of (m fs2)
    /\ agree_on keys (filters_of (m fs1)) (filters_of (m fs2)).

(** The filters [scrape_listing] looks at, and those a run looks at. *)
Definition used_by_listing : list string :=
  ["zip_codes"; "wheelchair_accessible"; "section_8_accepted"].

Definition used_by_run : list string :=
  ["zip_codes"; "wheelchair_accessible"; "section_8_accepted"; "min_price"; "max_price"].

(** Filters that differ from the initial ones in what no run looks at. *)
Definition three_bedrooms : gmap string value :=
  <["min_bedrooms" := VAtom (AInt 3)]>
  (<["property_type" := VAtom (AStr "house")]>
  (<["max_sqft" := VAtom (AInt 400)]> init_filters)).

(** Filters that ask for a rent no listing of the example site has. *)
Definition cheap_only : gmap string value :=
  <["max_price" := VAtom (AInt 1)]> init_filters.



(** The Section 8 phrases that are not implied by another phrase. *)
Definition section8_core : list string :=
  [ "section 8"; "housing choice voucher"; "hcv welcome" ]%string.

(** A page that has a description only. *)
Definition described (text : string) : soup :=
  Soup None None None None None None (Some text) [].

(** * Properties *)

(** ** Substrings and lower-casing *)

Lemma is_prefix_spec (k s : string) :
  is_prefix k s = true <-> exists post, s = k +:+ post.
Proof.
  revert s. induction k as [|a k IH]; intros s; simpl.
  - split; [intros _; exists s; reflexivity | reflexivity].
  - destruct s as [|b s].
    + split; [discriminate | intros [post H]; discriminate].
    + destruct (Ascii.eqb_spec a b) as [->|Hne].
      * rewrite IH. split; intros [post H]; exists post.
        -- simpl. now rewrite H.
        -- simpl in H. now inversion H.
      * split; [discriminate | intros [post H]; simpl in H; inversion H; congruence].
Qed.

Lemma is_substring_spec (k s : string) :
  is_substring k s = true <-> occurs_in k s.
Proof.
  unfold occurs_in. induction s as [|c s IH]; simpl.
  - rewrite orb_false_r, is_prefix_spec. split.
    + intros [post H]. exists EmptyString, post. exact H.
    + intros [pre [post H]]. destruct pre; [exists post; exact H | discriminate].
  - rewrite orb_true_iff, IH, is_prefix_spec. split.
    + intros [[post H] | [pre [post H]]].
      * exists EmptyString, post. exact H.
      * exists (String c pre), post. simpl. now rewrite H.
    + intros [pre [post H]]. destruct pre as [|c' pre].
      * left. exists post. exact H.
      * right. exists pre, post. simpl in H. now inversion H.
Qed.

Lemma lower_app (a b : string) : lower (a +:+ b) = lower a +:+ lower b.
Proof. induction a as [|c a IH]; simpl; [reflexivity | now rewrite IH]. Qed.

Lemma any_in_spec (indicators : list string) (text : string) :
  any_in indicators text = true <->
  exists k, In k indicators /\ occurs_in k text.
Proof.
  unfold any_in. rewrite existsb_exists.
  split; intros [k [Hin Hk]]; exists k; split; auto; now apply is_substring_spec.
Qed.

(** ** Attribute classifiers *)

(** C3. On a page that has a description, each classifier answers true
    exactly when the lower-cased description contains one of its keyword
    phrases; a description containing "Section 8 Welcome" in any casing
    makes the subsidized-housing classifier answer true. *)
Theorem classifiers_keyword_iff (page : soup) (text : string) :
  div_description page = Some text ->
  (is_wheelchair_accessible page = true <->
     exists k, In k accessibility_indicators /\ occurs_in k (lower text))
  /\ (accepts_section_8 page = true <->
     exists k, In k section8_indicators /\ occurs_in k (lower text))
  /\ (forall pre mid post,
        lower mid = lower "Section 8 Welcome" ->
        text = pre +:+ mid +:+ post ->
        accepts_section_8 page = true).
Proof.
  intros Hd. unfold is_wheelchair_accessible, accepts_section_8. rewrite Hd.
  split; [apply any_in_spec | split; [apply any_in_spec |]].
  intros pre mid post Hmid ->. apply any_in_spec.
  exists "section 8 welcome"%string. split.
  - simpl. tauto.
  - exists (lower pre), (lower post). now rewrite !lower_app, Hmid.
Qed.

Lemma classifiers_keyword_iff_witness :
  accepts_section_8
    (Soup None None None None None None
          (Some "Bright 2BR near the park. Section 8 Welcome!") []) = true.
Proof.
  refine (proj2 (proj2 (classifiers_keyword_iff
            (Soup None None None None None None
                  (Some "Bright 2BR near the park. Section 8 Welcome!") [])
            "Bright 2BR near the park. Section 8 Welcome!" eq_refl))
          "Bright 2BR near the park. " "Section 8 Welcome" "!" eq_refl eq_refl).
Defined.

(** ** The monad and the filter state *)

Lemma quiet_ret {A} (a : A) fs : quiet (ret a) fs.
Proof. now exists (Ok a). Qed.

Lemma quiet_raise {A} fs : quiet (@raise A) fs.
Proof. now exists Raised. Qed.

Lemma quiet_bind {A B} (m : M A) (k : A -> M B) fs :
  quiet m fs -> (forall a, quiet (k a) fs) -> quiet (bind m k) fs.
Proof.
  intros [r Hm] Hk. unfold quiet, bind. rewrite Hm.
  destruct r as [a|]; [|now exists Raised].
  destruct (Hk a) as [r' ->]. now exists r'.
Qed.

Lemma quiet_get_filter key fs : quiet (get_filter key) fs.
Proof. unfold quiet, get_filter. destruct (fs !! key); eauto. Qed.

Lemma quiet_text_strip found fs : quiet (text_strip found) fs.
Proof. destruct found; [apply quiet_ret | apply quiet_raise]. Qed.

Lemma quiet_put_same key v fs :
  fs !! key = Some v -> quiet (put_filter key v) fs.
Proof. intros H. exists (Ok tt). unfold put_filter. now rewrite insert_id. Qed.

Lemma get_filter_Some key v fs :
  fs !! key = Some v -> get_filter key fs = (Ok v, fs, []).
Proof. intros H. unfold get_filter. now rewrite H. Qed.

Lemma bind_get_filter {B} key v (k : value -> M B) fs :
  fs !! key = Some v -> bind (get_filter key) k fs = k v fs.
Proof.
  intros H. unfold bind. rewrite (get_filter_Some _ _ _ H).
  destruct (k v fs) as [[r fs'] t]. reflexivity.
Qed.

Lemma bind_Raised {A B} (m : M A) (k : A -> M B) fs fs' t :
  m fs = (Raised, fs', t) -> bind m k fs = (Raised, fs', t).
Proof. intros H. unfold bind. now rewrite H. Qed.

Lemma quiet_bind_get_filter {B} key (k : value -> M B) fs :
  (forall v, fs !! key = Some v -> quiet (k v) fs) ->
  quiet (bind (get_filter key) k) fs.
Proof.
  intros Hk. unfold quiet. destruct (fs !! key) as [v|] eqn:Hv.
  - rewrite (bind_get_filter _ _ _ _ Hv). now apply Hk.
  - exists Raised. apply bind_Raised. unfold get_filter. now rewrite Hv.
Qed.

Lemma bind_ret {A B} (a : A) (k : A -> M B) fs : bind (ret a) k fs = k a fs.
Proof. unfold bind, ret. destruct (k a fs) as [[r fs'] t]. reflexivity. Qed.

Lemma bind_quiet_Ok {A B} (m : M A) (k : A -> M B) a fs :
  m fs = (Ok a, fs, []) -> bind m k fs = k a fs.
Proof. intros H. unfold bind. rewrite H. destruct (k a fs) as [[r fs'] t]. reflexivity. Qed.

Section ScraperFacts.

Variable requests_get : string -> http_result.
Variable repr_container : value -> string.
Variable set_iter : gset atom -> list atom.

Local Abbreviation scrape_listing := (scrape_listing requests_get).
Local Abbreviation scrape_links := (scrape_links requests_get).
Local Abbreviation fetch := (fetch requests_get).
Local Abbreviation accepted := (accepted requests_get).
Local Abbreviation build_search_url := (build_search_url repr_container set_iter).
Local Abbreviation discover_links := (discover_links requests_get repr_container set_iter).
Local Abbreviation scrape_page := (scrape_page requests_get repr_container set_iter).
Local Abbreviation page_loop := (page_loop requests_get repr_container set_iter).
Local Abbreviation scrape_listings := (scrape_listings requests_get repr_container set_iter).

Lemma quiet_filter_contains x fs :
  stable fs -> quiet (filter_contains "zip_codes" x) fs.
Proof.
  intros Hst. unfold filter_contains.
  apply quiet_bind_get_filter. intros v Hv.
  destruct v as [[| | |s]|l|s|l|l|[|y l]];
    try apply quiet_ret; try apply quiet_raise.
  - simpl. apply quiet_bind; [now apply quiet_put_same | intros; apply quiet_ret].
  - now destruct (Hst y l).
Qed.

Lemma quiet_join_filter sep fs :
  stable fs -> quiet (join_filter set_iter sep "zip_codes") fs.
Proof.
  intros Hst. unfold join_filter.
  apply quiet_bind_get_filter. intros v Hv.
  apply quiet_bind.
  - destruct v as [[| | |s]|l|s|l|l|[|y l]];
      try apply quiet_ret; try apply quiet_raise.
    + apply quiet_bind; [now apply quiet_put_same | intros; apply quiet_ret].
    + now destruct (Hst y l).
  - intros items. destruct (as_strs items); [apply quiet_ret | apply quiet_raise].
Qed.

Lemma quiet_build_search_url fs : stable fs -> quiet build_search_url fs.
Proof.
  intros Hst. unfold build_search_url.
  repeat (apply quiet_bind; [try apply quiet_get_filter | intros ?]);
    try apply quiet_ret.
  destruct (truthy _); [|apply quiet_ret].
  apply quiet_bind; [now apply quiet_join_filter | intros; apply quiet_ret].
Qed.

Lemma quiet_check_and_extract target page fs :
  stable fs -> quiet (check_and_extract target page) fs.
Proof.
  intros Hst. unfold check_and_extract.
  apply quiet_bind; [apply quiet_get_filter | intros wa].
  destruct (_ && _)%bool; [apply quiet_ret|].
  apply quiet_bind; [apply quiet_get_filter | intros s8].
  destruct (_ && _)%bool; [apply quiet_ret|].
  repeat (apply quiet_bind; [apply quiet_text_strip | intros ?]).
  apply quiet_bind; [apply quiet_get_filter | intros zc].
  destruct (truthy zc); [|apply quiet_ret].
  apply quiet_bind; [now apply quiet_filter_contains | intros present].
  destruct (negb present); apply quiet_ret.
Qed.

(** ** One listing *)

Lemma fetch_response target status body fs :
  requests_get target = Response status body -> status_ok status ->
  fetch target fs = (Ok body, fs, [EGet target]).
Proof.
  intros Hget Hok. unfold fetch, bind, emit. rewrite Hget.
  destruct ((400 <=? status) && (status <? 600))%bool eqn:Hbad; [|reflexivity].
  exfalso. apply Hok. apply andb_true_iff in Hbad. lia.
Qed.

Lemma fetch_fault target fs :
  match requests_get target with
  | TransportFault => True
  | Response status _ => 400 <= status < 600
  end ->
  fetch target fs = (Raised, fs, [EGet target]).
Proof.
  intros H. unfold fetch, bind, emit.
  destruct (requests_get target) as [|status body]; [reflexivity|].
  replace ((400 <=? status) && (status <? 600))%bool with true; [reflexivity|].
  symmetry. apply andb_true_iff. lia.
Qed.

Lemma fetch_cases target fs :
  (exists status body, requests_get target = Response status body
                       /\ status_ok status
                       /\ fetch target fs = (Ok body, fs, [EGet target]))
  \/ fetch target fs = (Raised, fs, [EGet target]).
Proof.
  destruct (requests_get target) as [|status body] eqn:Hget.
  - right. apply fetch_fault. now rewrite Hget.
  - destruct (decide (400 <= status < 600)) as [Hbad|Hok].
    + right. apply fetch_fault. now rewrite Hget.
    + left. exists status, body. split; [reflexivity|]. split; [exact Hok|].
      now apply (fetch_response _ status).
Qed.

Lemma scrape_listing_fetched target status page fs :
  requests_get target = Response status page -> status_ok status ->
  scrape_listing target fs =
    match check_and_extract target page fs with
    | (Ok r, fs', t) => (Ok r, fs', EGet target :: t)
    | (Raised, fs', t) => (Ok None, fs', EGet target :: t ++ [EErrorListing target])
    end.
Proof.
  intros Hget Hok. unfold scrape_listing, try_except, bind at 1.
  rewrite (fetch_response _ _ _ _ Hget Hok).
  destruct (check_and_extract target page fs) as [[[r|] fs'] t]; reflexivity.
Qed.

Lemma scrape_listing_unfetched target fs :
  fetch target fs = (Raised, fs, [EGet target]) ->
  scrape_listing target fs = (Ok None, fs, [EGet target; EErrorListing target]).
Proof.
  intros Hf. unfold scrape_listing, try_except, bind at 1. now rewrite Hf.
Qed.

(** [scrape_listing] never raises: whatever happens inside is caught. *)
Lemma scrape_listing_returns target fs :
  exists r fs' t, scrape_listing target fs = (Ok r, fs', EGet target :: t).
Proof.
  destruct (fetch_cases target fs) as [(status & body & Hget & Hok & _) | Hf].
  - rewrite (scrape_listing_fetched _ _ _ _ Hget Hok).
    destruct (check_and_extract target body fs) as [[[r|] fs'] t]; eauto.
  - rewrite (scrape_listing_unfetched _ _ Hf). eauto.
Qed.

(** Under stable filters a listing is fetched once, the filters stay as
    they are and nothing is written. *)
Lemma scrape_listing_stable target fs :
  stable fs ->
  exists t, scrape_listing target fs = (Ok (accepted fs target), fs, EGet target :: t)
            /\ gets t = [] /\ written t = [].
Proof.
  intros Hst. unfold accepted, result_of.
  destruct (fetch_cases target fs) as [(status & body & Hget & Hok & _) | Hf].
  - rewrite (scrape_listing_fetched _ _ _ _ Hget Hok).
    destruct (quiet_check_and_extract target body fs Hst) as [r ->].
    destruct r as [r|]; simpl; eauto.
  - rewrite (scrape_listing_unfetched _ _ Hf). simpl. eauto.
Qed.

End ScraperFacts.

(** ** Reading a computation backwards *)

Lemma bind_Ok_inv {A B} (m : M A) (k : A -> M B) fs r fs' t :
  bind m k fs = (Ok r, fs', t) ->
  exists a fs1 t1 t2,
    m fs = (Ok a, fs1, t1) /\ k a fs1 = (Ok r, fs', t2) /\ t = t1 ++ t2.
Proof.
  unfold bind. destruct (m fs) as [[[a|] fs1] t1]; [|discriminate].
  destruct (k a fs1) as [[r' fs2] t2] eqn:Hk. intros [= -> -> <-].
  exists a, fs1, t1, t2. auto.
Qed.

Lemma get_filter_Ok_inv key fs v fs1 t1 :
  get_filter key fs = (Ok v, fs1, t1) -> fs !! key = Some v /\ fs1 = fs /\ t1 = [].
Proof. unfold get_filter. destruct (fs !! key); intros [= <- <- <-]; auto. Qed.

Lemma text_strip_Ok_inv found fs s fs1 t1 :
  text_strip found fs = (Ok s, fs1, t1) ->
  exists text, found = Some text /\ s = strip text /\ fs1 = fs /\ t1 = [].
Proof. destruct found as [text|]; intros [= <- <- <-]; eauto. Qed.

Ltac invert_get H :=
  let a := fresh "v" in let fs1 := fresh "fs" in
  let t1 := fresh "t" in let t2 := fresh "t" in
  let Hm := fresh "Hget" in let Hk := fresh "Hk" in let Ht := fresh "Ht" in
  apply bind_Ok_inv in H as (a & fs1 & t1 & t2 & Hm & Hk & Ht);
  apply get_filter_Ok_inv in Hm as (Hm & -> & ->);
  simpl in Ht; subst; rename Hk into H.

Ltac invert_text H :=
  let a := fresh "s" in let fs1 := fresh "fs" in
  let t1 := fresh "t" in let t2 := fresh "t" in let x := fresh "text" in
  let Hm := fresh "Hfound" in let Hk := fresh "Hk" in let Ht := fresh "Ht" in
  apply bind_Ok_inv in H as (a & fs1 & t1 & t2 & Hm & Hk & Ht);
  apply text_strip_Ok_inv in Hm as (x & Hm & -> & -> & ->);
  simpl in Ht; subst; rename Hk into H.

Lemma stable_set fs allowed : fs !! "zip_codes" = Some (VSet allowed) -> stable fs.
Proof. intros H x pending. rewrite H. discriminate. Qed.

Lemma truthy_set allowed : truthy (VSet allowed) = true <-> allowed <> ∅.
Proof.
  simpl. rewrite negb_true_iff, bool_decide_eq_false. reflexivity.
Qed.

Lemma filter_contains_set x fs allowed :
  fs !! "zip_codes" = Some (VSet allowed) ->
  filter_contains "zip_codes" x fs = (Ok (bool_decide (AStr x ∈ allowed)), fs, []).
Proof.
  intros H. unfold filter_contains. now rewrite (bind_get_filter _ _ _ _ H).
Qed.

(** What a returned listing says about the page and the filters. *)
Lemma check_and_extract_Some target page fs l fs' t :
  check_and_extract target page fs = (Ok (Some l), fs', t) ->
  (exists t p b ba sq ad de,
      h1_listing_title page = Some t /\ div_price page = Some p
      /\ span_bedrooms page = Some b /\ span_bathrooms page = Some ba
      /\ span_sqft page = Some sq /\ div_address page = Some ad
      /\ div_description page = Some de
      /\ l = Listing (strip t) (strip p) (strip b) (strip ba) (strip sq) (strip ad)
                     (extract_zip_code page) (is_wheelchair_accessible page)
                     (accepts_section_8 page) (strip de) target)
  /\ (forall wa, fs !! "wheelchair_accessible" = Some wa -> truthy wa = true ->
      is_wheelchair_accessible page = true)
  /\ (forall s8, fs !! "section_8_accepted" = Some s8 -> truthy s8 = true ->
      accepts_section_8 page = true)
  /\ (forall allowed, fs !! "zip_codes" = Some (VSet allowed) -> allowed <> ∅ ->
      AStr (extract_zip_code page) ∈ allowed).
Proof.
  unfold check_and_extract. intros H.
  invert_get H.
  destruct (truthy v && negb (is_wheelchair_accessible page))%bool eqn:Hwa;
    [discriminate|].
  invert_get H.
  destruct (truthy v0 && negb (accepts_section_8 page))%bool eqn:Hs8;
    [discriminate|].
  do 7 invert_text H.
  invert_get H.
  assert (Hgate : forall (b c : bool), (b && negb c)%bool = false -> b = true -> c = true)
    by (intros [] []; simpl; congruence).
  split; [|split; [|split]].
  - exists text, text0, text1, text2, text3, text4, text5.
    repeat (split; [assumption|]).
    destruct (truthy v1).
    + apply bind_Ok_inv in H as (present & fs1 & t1 & t2 & _ & Hk & _).
      destruct present; simpl in Hk; unfold ret in Hk; congruence.
    + unfold ret in H. congruence.
  - intros wa Hwa' Htrue. rewrite Hget in Hwa'. injection Hwa' as <-. eauto.
  - intros s8 Hs8' Htrue. rewrite Hget0 in Hs8'. injection Hs8' as <-. eauto.
  - intros allowed Hzc Hne. rewrite Hget1 in Hzc. injection Hzc as ->.
    rewrite (proj2 (truthy_set allowed) Hne) in H.
    apply bind_Ok_inv in H as (present & fs1 & t1 & t2 & Hc & Hk & _).
    rewrite (filter_contains_set _ _ _ Hget1) in Hc. injection Hc as <- <- <-.
    destruct (bool_decide (AStr (extract_zip_code page) ∈ allowed)) eqn:Hin.
    + now apply bool_decide_eq_true in Hin.
    + simpl in Hk. unfold ret in Hk. discriminate.
Qed.

(** A page that has every located field and passes the gates is accepted
    when the ZIP filter is falsy. *)
Lemma check_and_extract_accepts target page fs wa s8 zc t p b ba sq ad de :
  fs !! "wheelchair_accessible" = Some wa ->
  fs !! "section_8_accepted" = Some s8 ->
  fs !! "zip_codes" = Some zc ->
  (truthy wa = true -> is_wheelchair_accessible page = true) ->
  (truthy s8 = true -> accepts_section_8 page = true) ->
  truthy zc = false ->
  h1_listing_title page = Some t -> div_price page = Some p ->
  span_bedrooms page = Some b -> span_bathrooms page = Some ba ->
  span_sqft page = Some sq -> div_address page = Some ad ->
  div_description page = Some de ->
  check_and_extract target page fs =
    (Ok (Some (Listing (strip t) (strip p) (strip b) (strip ba) (strip sq) (strip ad)
                       (extract_zip_code page) (is_wheelchair_accessible page)
                       (accepts_section_8 page) (strip de) target)), fs, []).
Proof.
  intros Hwa Hs8 Hzc Gwa Gs8 Hfalsy Ht Hp Hb Hba Hsq Had Hde.
  unfold check_and_extract.
  rewrite (bind_get_filter _ _ _ _ Hwa).
  replace (truthy wa && negb (is_wheelchair_accessible page))%bool with false
    by (destruct (truthy wa); [rewrite Gwa|]; reflexivity).
  rewrite (bind_get_filter _ _ _ _ Hs8).
  replace (truthy s8 && negb (accepts_section_8 page))%bool with false
    by (destruct (truthy s8); [rewrite Gs8|]; reflexivity).
  rewrite Ht, Hp, Hb, Hba, Hsq, Had, Hde. simpl text_strip.
  rewrite !bind_ret.
  rewrite (bind_get_filter _ _ _ _ Hzc), Hfalsy. reflexivity.
Qed.

(** A missing located field makes the extraction raise, whatever the
    filters, once the gates are passed. *)
Lemma check_and_extract_missing target page fs :
  h1_listing_title page = None \/ div_price page = None
  \/ span_bedrooms page = None \/ span_bathrooms page = None
  \/ span_sqft page = None \/ div_address page = None
  \/ div_description page = None ->
  forall l fs' t, check_and_extract target page fs <> (Ok (Some l), fs', t).
Proof.
  intros Hmiss l fs' t H.
  apply check_and_extract_Some in H
    as ((t0 & p & b & ba & sq & ad & de & Ht & Hp & Hb & Hba & Hsq & Had & Hde & _) & _).
  intuition congruence.
Qed.

Section ListingFacts.

Variable requests_get : string -> http_result.

Local Abbreviation scrape_listing := (scrape_listing requests_get).

(** A listing is returned only for a page that was fetched and whose
    extraction returned it. *)
Lemma scrape_listing_Some target fs l :
  result_of (scrape_listing target fs) = Ok (Some l) ->
  exists status page fs' t,
    requests_get target = Response status page /\ status_ok status
    /\ check_and_extract target page fs = (Ok (Some l), fs', t).
Proof.
  intros H.
  destruct (fetch_cases requests_get target fs) as [(status & body & Hget & Hok & _) | Hf].
  - rewrite (scrape_listing_fetched _ _ _ _ _ Hget Hok) in H.
    exists status, body.
    destruct (check_and_extract target body fs) as [[[r|] fs'] t] eqn:Hc.
    + simpl in H. injection H as ->. eauto.
    + discriminate.
  - rewrite (scrape_listing_unfetched _ _ _ Hf) in H. discriminate.
Qed.

Lemma scrape_listing_result_Ok target fs :
  exists r, result_of (scrape_listing target fs) = Ok r.
Proof.
  destruct (scrape_listing_returns requests_get target fs) as (r & fs' & t & ->).
  now exists r.
Qed.

End ListingFacts.

(** ** The listing filter *)

(** C1. With a non-empty set of allowed ZIP codes, a listing whose ZIP
    code is not in the set is rejected; with the empty set, a page that
    has every located field and passes the two attribute gates is
    returned: the ZIP check on its own rejects nothing. *)
Theorem zip_filter_law (requests_get : string -> http_result)
    (target : string) (fs : gmap string value) (allowed : gset atom) :
  fs !! "zip_codes" = Some (VSet allowed) ->
  (allowed <> ∅ ->
   forall status page,
     requests_get target = Response status page ->
     AStr (extract_zip_code page) ∉ allowed ->
     result_of (scrape_listing requests_get target fs) = Ok None)
  /\ (allowed = ∅ ->
      forall status t p b ba sq ad de links wa s8,
        let page := Soup (Some t) (Some p) (Some b) (Some ba) (Some sq)
                         (Some ad) (Some de) links in
        requests_get target = Response status page ->
        status_ok status ->
        fs !! "wheelchair_accessible" = Some wa ->
        fs !! "section_8_accepted" = Some s8 ->
        (truthy wa = true -> is_wheelchair_accessible page = true) ->
        (truthy s8 = true -> accepts_section_8 page = true) ->
        result_of (scrape_listing requests_get target fs) =
          Ok (Some (Listing (strip t) (strip p) (strip b) (strip ba) (strip sq)
                            (strip ad) (extract_zip_code page)
                            (is_wheelchair_accessible page)
                            (accepts_section_8 page) (strip de) target))).
Proof.
  intros Hzc. split.
  - intros Hne status page Hget Hnotin.
    destruct (scrape_listing_result_Ok requests_get target fs) as [[l|] Hr];
      [|exact Hr].
    exfalso.
    destruct (scrape_listing_Some _ _ _ _ Hr)
      as (status' & page' & fs' & t & Hget' & _ & Hc).
    rewrite Hget in Hget'. injection Hget' as <- <-.
    apply check_and_extract_Some in Hc as (_ & _ & _ & Hin).
    exact (Hnotin (Hin allowed Hzc Hne)).
  - intros -> status t p b ba sq ad de links wa s8 page Hget Hok Hwa Hs8 Gwa Gs8.
    rewrite (scrape_listing_fetched _ _ _ _ _ Hget Hok).
    rewrite (check_and_extract_accepts target page fs wa s8 (VSet ∅)
               t p b ba sq ad de); auto.
Qed.

Lemma zip_filter_law_witness :
  result_of (scrape_listing (demo_site TransportFault) "/b" only_33131) = Ok None
  /\ result_of (scrape_listing (demo_site TransportFault) "/b" init_filters)
     = Ok (Some listing_b).
Proof.
  split.
  - refine (proj1 (zip_filter_law (demo_site TransportFault) "/b" only_33131
                     {[ AStr "33131" ]} eq_refl) _ 200 _ eq_refl _).
    + apply (bool_decide_unpack _). vm_compute. exact I.
    + apply (bool_decide_unpack _). vm_compute. exact I.
  - refine (proj2 (zip_filter_law (demo_site TransportFault) "/b" init_filters
                     ∅ eq_refl) eq_refl 200 _ _ _ _ _ _ _ [] (VAtom (ABool false))
                  (VAtom (ABool false)) eq_refl _ eq_refl eq_refl _ _).
    + unfold status_ok. lia.
    + discriminate.
    + discriminate.
Defined.

(** C2. When the filters require wheelchair accessibility and the page
    is not classified as accessible, the listing is rejected, whatever
    else the page and the filters hold. *)
Theorem wheelchair_short_circuit (requests_get : string -> http_result)
    (target : string) (fs : gmap string value) (wa : value) :
  fs !! "wheelchair_accessible" = Some wa ->
  truthy wa = true ->
  (forall status page,
     requests_get target = Response status page ->
     is_wheelchair_accessible page = false) ->
  scrape_listing requests_get target fs = (Ok None, fs, [EGet target])
  \/ scrape_listing requests_get target fs
     = (Ok None, fs, [EGet target; EErrorListing target]).
Proof.
  intros Hwa Htrue Hpage.
  destruct (fetch_cases requests_get target fs) as [(status & body & Hget & Hok & _) | Hf].
  - left. rewrite (scrape_listing_fetched _ _ _ _ _ Hget Hok).
    unfold check_and_extract.
    rewrite (bind_get_filter _ _ _ _ Hwa), Htrue, (Hpage _ _ Hget). reflexivity.
  - right. now apply scrape_listing_unfetched.
Qed.

Lemma wheelchair_short_circuit_witness :
  result_of (scrape_listing (demo_site TransportFault) "/b" wheelchair_required)
  = Ok None.
Proof.
  destruct (wheelchair_short_circuit (demo_site TransportFault) "/b"
              wheelchair_required (VAtom (ABool true)) eq_refl eq_refl) as [H|H].
  - intros status page [= <- <-]. reflexivity.
  - now rewrite H.
  - now rewrite H.
Defined.

(** ** Links and pages *)

Lemma gets_app t1 t2 : gets (t1 ++ t2) = gets t1 ++ gets t2.
Proof. apply omap_app. Qed.

Lemma written_app t1 t2 : written (t1 ++ t2) = written t1 ++ written t2.
Proof. apply omap_app. Qed.

Lemma hrefs_present links fs :
  hrefs (Some <$> links) fs = (Ok links, fs, []).
Proof.
  induction links as [|h links IH]; [reflexivity|].
  change (hrefs (Some <$> h :: links) fs)
    with (bind (hrefs (Some <$> links)) (fun hs => ret (h :: hs)) fs).
  unfold bind. now rewrite IH.
Qed.

Lemma quiet_hrefs anchors fs : quiet (hrefs anchors) fs.
Proof.
  induction anchors as [|[h|] anchors IH]; simpl.
  - apply quiet_ret.
  - apply quiet_bind; [exact IH | intros; apply quiet_ret].
  - apply quiet_raise.
Qed.

Section PageFacts.

Variable requests_get : string -> http_result.
Variable repr_container : value -> string.
Variable set_iter : gset atom -> list atom.

Local Abbreviation scrape_listing := (scrape_listing requests_get).
Local Abbreviation scrape_links := (scrape_links requests_get).
Local Abbreviation accepted := (accepted requests_get).
Local Abbreviation build_search_url := (build_search_url repr_container set_iter).
Local Abbreviation discover_links := (discover_links requests_get repr_container set_iter).
Local Abbreviation scrape_page := (scrape_page requests_get repr_container set_iter).
Local Abbreviation page_loop := (page_loop requests_get repr_container set_iter).
Local Abbreviation scrape_listings := (scrape_listings requests_get repr_container set_iter).
Local Abbreviation page_shows := (page_shows requests_get).
Local Abbreviation pages_show := (pages_show requests_get).
Local Abbreviation page_faults := (page_faults requests_get).

(** The loop over the links of a page visits every link, in order, and
    appends what [scrape_listing] returns for it. *)
Lemma scrape_links_stable urls acc fs :
  stable fs ->
  exists t,
    scrape_links urls acc fs = (Ok (acc ++ omap (accepted fs) urls), fs, t)
    /\ gets t = urls /\ written t = [].
Proof.
  intros Hst. revert acc. induction urls as [|u urls IH]; intros acc.
  - exists []. simpl. now rewrite app_nil_r.
  - destruct (scrape_listing_stable requests_get u fs Hst) as (t1 & Hu & Hg1 & Hw1).
    simpl. unfold bind at 1. rewrite Hu.
    destruct (accepted fs u) as [l|].
    + destruct (IH (acc ++ [l])) as (t2 & -> & Hg2 & Hw2).
      exists ((EGet u :: t1) ++ t2). rewrite <- app_assoc. split; [reflexivity|].
      rewrite gets_app, written_app. simpl. rewrite Hg1, Hg2, Hw1, Hw2. auto.
    + destruct (IH acc) as (t2 & -> & Hg2 & Hw2).
      exists ((EGet u :: t1) ++ t2). split; [reflexivity|].
      rewrite gets_app, written_app. simpl. rewrite Hg1, Hg2, Hw1, Hw2. auto.
Qed.

(** The discovery of the links of a page leaves stable filters alone, and
    writes nothing. *)
Lemma discover_links_stable page fs :
  stable fs ->
  exists r t, discover_links page fs = (r, fs, t) /\ written t = [].
Proof.
  intros Hst. unfold discover_links.
  destruct (quiet_build_search_url repr_container set_iter fs Hst) as [[base|] Hb].
  - rewrite (bind_quiet_Ok _ _ _ _ Hb).
    destruct (fetch_cases requests_get (page_url base page) fs)
      as [(status & body & _ & _ & Hf) | Hf].
    + unfold bind. rewrite Hf.
      destruct (quiet_hrefs (a_listing_link body) fs) as [r ->]. eauto.
    + rewrite (bind_Raised _ _ _ _ _ Hf). eauto.
  - rewrite (bind_Raised _ _ _ _ _ Hb). eauto.
Qed.

Lemma discover_links_shows base page links fs :
  build_search_url fs = (Ok base, fs, []) ->
  page_shows base page links ->
  discover_links page fs = (Ok links, fs, [EGet (page_url base page)]).
Proof.
  intros Hb (status & doc & Hget & Hok & Hlinks). unfold discover_links.
  rewrite (bind_quiet_Ok _ _ _ _ Hb). unfold bind.
  rewrite (fetch_response _ _ _ _ _ Hget Hok), Hlinks, hrefs_present. reflexivity.
Qed.

Lemma discover_links_faults base page fs :
  build_search_url fs = (Ok base, fs, []) ->
  page_faults base page ->
  discover_links page fs = (Raised, fs, [EGet (page_url base page)]).
Proof.
  intros Hb Hfault. unfold discover_links.
  rewrite (bind_quiet_Ok _ _ _ _ Hb).
  apply bind_Raised. now apply fetch_fault.
Qed.

(** One iteration of the page loop whose discovery succeeded. *)
Lemma page_loop_step page acc links t0 fs :
  stable fs ->
  discover_links page fs = (Ok links, fs, t0) ->
  exists t1,
    gets t1 = links /\ written t1 = []
    /\ forall n,
       page_loop (S n) page acc fs =
       match page_loop n (page + 1) (acc ++ omap (accepted fs) links) fs with
       | (r, fs', t2) => (r, fs', (t0 ++ t1 ++ [ESleep 2]) ++ t2)
       end.
Proof.
  intros Hst Hd.
  destruct (scrape_links_stable links acc fs Hst) as (t1 & Hl & Hg & Hw).
  exists t1. split; [exact Hg|]. split; [exact Hw|]. intros n.
  simpl. unfold bind at 1, try_except, bind at 1, scrape_page, bind at 1.
  rewrite Hd. unfold bind at 1. rewrite Hl. simpl.
  rewrite !app_nil_r. reflexivity.
Qed.

(** One iteration whose discovery raised: the loop is left at once. *)
Lemma page_loop_break n page acc t0 fs :
  discover_links page fs = (Raised, fs, t0) ->
  page_loop (S n) page acc fs = (Ok acc, fs, t0 ++ [EErrorPage page]).
Proof.
  intros Hd.
  simpl. unfold bind at 1, try_except, bind at 1, scrape_page, bind at 1.
  rewrite Hd. simpl. now rewrite !app_nil_r.
Qed.

(** The page loop always returns, leaves stable filters alone, writes
    nothing, and its result extends the accumulator by what was accepted
    of some sequence of links. *)
Lemma page_loop_stable n page acc fs :
  stable fs ->
  exists seen t,
    page_loop n page acc fs = (Ok (acc ++ omap (accepted fs) seen), fs, t)
    /\ written t = [].
Proof.
  intros Hst. revert page acc. induction n as [|n IH]; intros page acc.
  - exists [], []. simpl. now rewrite app_nil_r.
  - destruct (discover_links_stable page fs Hst) as ([links|] & t0 & Hd & Hw0).
    + destruct (page_loop_step page acc links t0 fs Hst Hd) as (t1 & Hg & Hw1 & Hstep).
      rewrite Hstep.
      destruct (IH (page + 1) (acc ++ omap (accepted fs) links))
        as (seen & t2 & -> & Hw2).
      exists (links ++ seen), ((t0 ++ t1 ++ [ESleep 2]) ++ t2).
      rewrite omap_app, (app_assoc acc). split; [reflexivity|].
      rewrite !written_app, Hw0, Hw1, Hw2. reflexivity.
    + rewrite (page_loop_break n page acc t0 fs Hd).
      exists [], (t0 ++ [EErrorPage page]). simpl. rewrite app_nil_r.
      split; [reflexivity|]. rewrite written_app, Hw0. reflexivity.
Qed.

(** A run over pages that all show their links, followed by [n] more
    iterations. *)
Lemma page_loop_shown base pages page acc fs :
  stable fs ->
  build_search_url fs = (Ok base, fs, []) ->
  pages_show base page pages ->
  exists t,
    gets t = visit_order base page pages /\ written t = []
    /\ forall n,
       page_loop (length pages + n) page acc fs =
       match page_loop n (page + Z.of_nat (length pages))
                       (acc ++ omap (accepted fs) (concat pages)) fs with
       | (r, fs', t') => (r, fs', t ++ t')
       end.
Proof.
  intros Hst Hb. revert page acc.
  induction pages as [|links pages IH]; intros page acc Hshow.
  - exists []. split; [reflexivity|]. split; [reflexivity|]. intros n.
    simpl. rewrite app_nil_r, Z.add_0_r.
    destruct (page_loop n page acc fs) as [[r fs'] t']. auto.
  - assert (Hhead : page_shows base page links).
    { specialize (Hshow O links eq_refl). simpl in Hshow.
      now rewrite Z.add_0_r in Hshow. }
    assert (Htail : pages_show base (page + 1) pages).
    { intros i ls Hi. specialize (Hshow (S i) ls Hi).
      replace (page + 1 + Z.of_nat i) with (page + Z.of_nat (S i)) by lia.
      exact Hshow. }
    destruct (page_loop_step page acc links _ fs Hst
                (discover_links_shows base page links fs Hb Hhead))
      as (t1 & Hg1 & Hw1 & Hstep).
    destruct (IH (page + 1) (acc ++ omap (accepted fs) links) Htail)
      as (t2 & Hg2 & Hw2 & Hrest).
    exists (([EGet (page_url base page)] ++ t1 ++ [ESleep 2]) ++ t2).
    split; [|split].
    + rewrite !gets_app. simpl. rewrite Hg1, Hg2. simpl.
      now rewrite app_nil_r.
    + rewrite !written_app, Hw1, Hw2. reflexivity.
    + intros n. specialize (Hrest n).
      change (length (links :: pages) + n)%nat with (S (length pages + n)).
      replace (page + 1 + Z.of_nat (length pages))
        with (page + Z.of_nat (length (links :: pages))) in Hrest
        by (simpl length; lia).
      rewrite Hstep, Hrest. simpl concat. rewrite omap_app, (app_assoc acc).
      destruct (page_loop n _ _ fs) as [[r fs'] t']. now rewrite app_assoc.
Qed.

(** A run whose budget is exactly the pages shown. *)
Lemma scrape_listings_shown base pages max_pages fs :
  stable fs ->
  build_search_url fs = (Ok base, fs, []) ->
  pages_show base 1 pages ->
  Z.to_nat max_pages = length pages ->
  exists t,
    gets t = visit_order base 1 pages /\ written t = []
    /\ scrape_listings max_pages fs = (Ok (omap (accepted fs) (concat pages)), fs, t).
Proof.
  intros Hst Hb Hshow Hlen.
  destruct (page_loop_shown base pages 1 [] fs Hst Hb Hshow) as (t & Hg & Hw & Hrun).
  exists t. split; [exact Hg|]. split; [exact Hw|].
  unfold scrape_listings. rewrite Hlen.
  specialize (Hrun O). rewrite Nat.add_0_r in Hrun. rewrite Hrun.
  simpl. now rewrite app_nil_r.
Qed.

End PageFacts.

(** ** The pagination driver *)

Lemma save_results_eq now listings fs :
  save_results now listings fs =
    (Ok tt, fs,
     match listings with
     | [] => [EWarnNoListings]
     | _ :: _ => [EToCsv (csv_filename now) listings;
                  EInfo ("Results saved to " +:+ csv_filename now)]
     end).
Proof. destruct listings; reflexivity. Qed.

Lemma scrape_and_save_eq requests_get repr_container set_iter max_pages now fs ls t :
  scrape_listings requests_get repr_container set_iter max_pages fs = (Ok ls, fs, t) ->
  scrape_and_save requests_get repr_container set_iter max_pages now fs =
    (Ok tt, fs,
     [EInfo "Starting scraping process...";
      EInfo ("Searching in ZIP codes: " +:+ String.concat ", " miami_keys)]
     ++ t ++ trace_of (save_results now ls fs)
     ++ [EInfo ("Scraping completed! Found " +:+ pretty (length ls)
                +:+ " matching listings")]).
Proof.
  intros Hrun. unfold scrape_and_save, bind, emit.
  rewrite Hrun, !save_results_eq. unfold trace_of. simpl.
  rewrite <- ?app_assoc. reflexivity.
Qed.

(** C8. When the pages of the budget show fixed sequences of links, the
    driver returns the listings accepted among the links taken page by
    page and, within a page, link by link, in that order. *)
Theorem result_order
    (requests_get : string -> http_result) (repr_container : value -> string)
    (set_iter : gset atom -> list atom)
    (fs : gmap string value) (base : string) (max_pages : Z)
    (pages : list (list string)) :
  stable fs ->
  build_search_url repr_container set_iter fs = (Ok base, fs, []) ->
  pages_show requests_get base 1 pages ->
  Z.to_nat max_pages = length pages ->
  result_of (scrape_listings requests_get repr_container set_iter max_pages fs)
  = Ok (omap (accepted requests_get fs) (concat pages)).
Proof.
  intros Hst Hb Hshow Hlen.
  destruct (scrape_listings_shown requests_get repr_container set_iter
              base pages max_pages fs Hst Hb Hshow Hlen) as (t & _ & _ & ->).
  reflexivity.
Qed.

(** C7. When the pages of the budget show their links, every search
    page and every link is requested, in order, whatever happens to the
    single listings; a link for which [scrape_listing] returns nothing
    (failed fetch, failed extraction or rejection) is left out of the
    result and the links before and after it contribute as they would
    without it. *)
Theorem listing_failure_is_isolated
    (requests_get : string -> http_result) (repr_container : value -> string)
    (set_iter : gset atom -> list atom)
    (fs : gmap string value) (base : string) (max_pages : Z)
    (pages : list (list string)) :
  stable fs ->
  build_search_url repr_container set_iter fs = (Ok base, fs, []) ->
  pages_show requests_get base 1 pages ->
  Z.to_nat max_pages = length pages ->
  exists ls t,
    scrape_listings requests_get repr_container set_iter max_pages fs = (Ok ls, fs, t)
    /\ gets t = visit_order base 1 pages
    /\ forall before target after,
         concat pages = before ++ target :: after ->
         accepted requests_get fs target = None ->
         ls = omap (accepted requests_get fs) before
              ++ omap (accepted requests_get fs) after.
Proof.
  intros Hst Hb Hshow Hlen.
  destruct (scrape_listings_shown requests_get repr_container set_iter
              base pages max_pages fs Hst Hb Hshow Hlen) as (t & Hg & _ & Hrun).
  exists (omap (accepted requests_get fs) (concat pages)), t.
  split; [exact Hrun|]. split; [exact Hg|].
  intros before target after -> Hnone.
  rewrite omap_app. simpl. now rewrite Hnone.
Qed.

(** C6. When the pages before page [k] show their links and the fetch
    of page [k], within the budget, fails, the driver requests nothing
    after page [k] and returns exactly what the run over the earlier
    pages returns; the run then hands this list to [save_results]. *)
Theorem search_fault_aborts_run
    (requests_get : string -> http_result) (repr_container : value -> string)
    (set_iter : gset atom -> list atom)
    (fs : gmap string value) (base : string) (max_pages : Z)
    (pages : list (list string)) :
  stable fs ->
  build_search_url repr_container set_iter fs = (Ok base, fs, []) ->
  pages_show requests_get base 1 pages ->
  (length pages < Z.to_nat max_pages)%nat ->
  page_faults requests_get base (1 + Z.of_nat (length pages)) ->
  let k := 1 + Z.of_nat (length pages) in
  let ls := omap (accepted requests_get fs) (concat pages) in
  exists t,
    gets t = visit_order base 1 pages
    /\ written t = []
    /\ scrape_listings requests_get repr_container set_iter
         (Z.of_nat (length pages)) fs = (Ok ls, fs, t)
    /\ scrape_listings requests_get repr_container set_iter max_pages fs
       = (Ok ls, fs, t ++ [EGet (page_url base k); EErrorPage k])
    /\ forall now,
         scrape_and_save requests_get repr_container set_iter max_pages now fs
         = (Ok tt, fs,
            [EInfo "Starting scraping process...";
             EInfo ("Searching in ZIP codes: " +:+ String.concat ", " miami_keys)]
            ++ (t ++ [EGet (page_url base k); EErrorPage k])
            ++ trace_of (save_results now ls fs)
            ++ [EInfo ("Scraping completed! Found " +:+ pretty (length ls)
                       +:+ " matching listings")]).
Proof.
  intros Hst Hb Hshow Hlt Hfault k ls.
  destruct (page_loop_shown requests_get repr_container set_iter
              base pages 1 [] fs Hst Hb Hshow) as (t & Hg & Hw & Hrun).
  assert (Hfull : scrape_listings requests_get repr_container set_iter max_pages fs
                  = (Ok ls, fs, t ++ [EGet (page_url base k); EErrorPage k])).
  { unfold scrape_listings.
    replace (Z.to_nat max_pages)
      with (length pages + S (Z.to_nat max_pages - length pages - 1))%nat by lia.
    rewrite Hrun.
    rewrite (page_loop_break _ _ _ _ _ _ _ _
               (discover_links_faults _ _ _ base k fs Hb Hfault)).
    reflexivity. }
  exists t. split; [exact Hg|]. split; [exact Hw|]. split; [|split; [exact Hfull|]].
  - unfold scrape_listings. rewrite Nat2Z.id.
    specialize (Hrun O). rewrite Nat.add_0_r in Hrun. rewrite Hrun.
    simpl. now rewrite app_nil_r.
  - intros now. now apply scrape_and_save_eq.
Qed.

(** C10. Under a set of allowed ZIP codes, the driver returns, and
    every listing it returns satisfies the active criteria: its ZIP code
    is in the set when the set is not empty, it is marked accessible when
    accessibility is required, and marked as accepting Section 8 when
    that is required. *)
Theorem result_satisfies_criteria
    (requests_get : string -> http_result) (repr_container : value -> string)
    (set_iter : gset atom -> list atom)
    (fs : gmap string value) (allowed : gset atom) (max_pages : Z) :
  fs !! "zip_codes" = Some (VSet allowed) ->
  exists ls,
    result_of (scrape_listings requests_get repr_container set_iter max_pages fs) = Ok ls
    /\ forall l, In l ls ->
         (allowed <> ∅ -> AStr (zip_code l) ∈ allowed)
         /\ (forall wa, fs !! "wheelchair_accessible" = Some wa -> truthy wa = true ->
             wheelchair_accessible l = true)
         /\ (forall s8, fs !! "section_8_accepted" = Some s8 -> truthy s8 = true ->
             section_8_accepted l = true).
Proof.
  intros Hzc.
  destruct (page_loop_stable requests_get repr_container set_iter
              (Z.to_nat max_pages) 1 [] fs (stable_set _ _ Hzc))
    as (seen & t & Hrun & _).
  exists (omap (accepted requests_get fs) seen). split.
  - unfold scrape_listings. now rewrite Hrun.
  - intros l Hin. apply list_elem_of_In, list_elem_of_omap in Hin as (target & _ & Hacc).
    unfold accepted in Hacc.
    destruct (result_of (scrape_listing requests_get target fs)) as [r|] eqn:Hr;
      [|discriminate].
    subst r.
    destruct (scrape_listing_Some _ _ _ _ Hr) as (status & page & fs' & t' & _ & _ & Hc).
    apply check_and_extract_Some in Hc
      as ((t0 & p & b & ba & sq & ad & de & _ & _ & _ & _ & _ & _ & _ & ->)
          & Hwa & Hs8 & Hzip).
    simpl. eauto.
Qed.

(** ** The example site *)

Lemma stable_init_filters : stable init_filters.
Proof. apply (stable_set _ ∅). reflexivity. Qed.

Lemma stable_only_33131 : stable only_33131.
Proof. apply (stable_set _ {[ AStr "33131" ]}). reflexivity. Qed.

Lemma build_from_result repr_container set_iter fs base :
  stable fs ->
  result_of (build_search_url repr_container set_iter fs) = Ok base ->
  build_search_url repr_container set_iter fs = (Ok base, fs, []).
Proof.
  intros Hst Hr.
  destruct (quiet_build_search_url repr_container set_iter fs Hst) as [r Hq].
  rewrite Hq in Hr. unfold result_of in Hr. simpl in Hr. now subst r.
Qed.

Lemma build_init_filters :
  build_search_url no_repr elements init_filters = (Ok base_url, init_filters, []).
Proof.
  apply build_from_result; [exact stable_init_filters|]. vm_compute. reflexivity.
Qed.

Lemma build_only_33131 :
  build_search_url no_repr elements only_33131
  = (Ok (base_url +:+ "zip_codes=33131"), only_33131, []).
Proof.
  apply build_from_result; [exact stable_only_33131|]. vm_compute. reflexivity.
Qed.

Lemma demo_first_page page2 base :
  base = base_url \/ base = base_url +:+ "zip_codes=33131" ->
  pages_show (demo_site page2) base 1 [demo_links].
Proof.
  intros Hbase [|[|i]] links [= <-].
  exists 200, (demo_search demo_links).
  split; [|split; [unfold status_ok; lia | reflexivity]].
  destruct Hbase as [-> | ->]; vm_compute; reflexivity.
Qed.

Lemma demo_two_pages base :
  base = base_url \/ base = base_url +:+ "zip_codes=33131" ->
  pages_show (demo_site demo_page2) base 1 [demo_links; ["/f"; "/a"]].
Proof.
  intros Hbase [|[|[|i]]] links [= <-].
  - exists 200, (demo_search demo_links).
    split; [|split; [unfold status_ok; lia | reflexivity]].
    destruct Hbase as [-> | ->]; vm_compute; reflexivity.
  - exists 200, (demo_search ["/f"; "/a"]).
    split; [|split; [unfold status_ok; lia | reflexivity]].
    destruct Hbase as [-> | ->]; vm_compute; reflexivity.
Qed.

Lemma demo_second_page_faults base :
  base = base_url \/ base = base_url +:+ "zip_codes=33131" ->
  page_faults (demo_site TransportFault) base (1 + Z.of_nat (length [demo_links])).
Proof. intros [-> | ->]; vm_compute; exact I. Qed.

(** ** The example runs *)

Lemma result_order_witness :
  result_of (scrape_listings (demo_site demo_page2) no_repr elements 2 only_33131)
  = Ok [listing_a; listing_a].
Proof.
  rewrite (result_order (demo_site demo_page2) no_repr elements only_33131
             (base_url +:+ "zip_codes=33131") 2 [demo_links; ["/f"; "/a"]]
             stable_only_33131 build_only_33131
             (demo_two_pages _ (or_intror eq_refl)) eq_refl).
  vm_compute. reflexivity.
Defined.

Lemma listing_failure_is_isolated_witness :
  exists t,
    scrape_listings (demo_site demo_page2) no_repr elements 2 init_filters
    = (Ok [listing_a; listing_b; listing_e; listing_f; listing_a], init_filters, t)
    /\ gets t = [page_url base_url 1; "/a"; "/b"; "/c"; "/d"; "/e";
                 page_url base_url 2; "/f"; "/a"].
Proof.
  destruct (listing_failure_is_isolated (demo_site demo_page2) no_repr elements
              init_filters base_url 2 [demo_links; ["/f"; "/a"]]
              stable_init_filters build_init_filters
              (demo_two_pages _ (or_introl eq_refl)) eq_refl)
    as (ls & t & Hrun & Hg & Hskip).
  exists t. split; [|exact Hg].
  rewrite Hrun. f_equal. f_equal. f_equal.
  rewrite (Hskip ["/a"; "/b"] "/c" ["/d"; "/e"; "/f"; "/a"] eq_refl);
    vm_compute; reflexivity.
Defined.

Lemma search_fault_aborts_run_witness :
  result_of (scrape_listings (demo_site TransportFault) no_repr elements 5 init_filters)
  = Ok [listing_a; listing_b; listing_e]
  /\ written (trace_of (scrape_and_save (demo_site TransportFault) no_repr elements
                                        5 demo_now init_filters))
     = [("scraping_results/miami_listings_20240102_030405.csv",
         [listing_a; listing_b; listing_e])].
Proof.
  destruct (search_fault_aborts_run (demo_site TransportFault) no_repr elements
              init_filters base_url 5 [demo_links]
              stable_init_filters build_init_filters
              (demo_first_page _ _ (or_introl eq_refl))
              ltac:(simpl; lia)
              (demo_second_page_faults _ (or_introl eq_refl)))
    as (t & Hg & Hw & Hprefix & Hfull & Hsave).
  split.
  - rewrite Hfull. vm_compute. reflexivity.
  - rewrite (Hsave demo_now).
    change (trace_of (Ok tt, init_filters, ?t)) with t.
    rewrite !written_app, Hw. vm_compute. reflexivity.
Defined.

Lemma result_satisfies_criteria_witness :
  exists ls,
    result_of (scrape_listings (demo_site demo_page2) no_repr elements 2 only_33131)
    = Ok ls
    /\ forall l, In l ls -> zip_code l = "33131".
Proof.
  destruct (result_satisfies_criteria (demo_site demo_page2) no_repr elements
              only_33131 {[ AStr "33131" ]} 2 eq_refl) as (ls & Hrun & Hall).
  exists ls. split; [exact Hrun|].
  intros l Hin. destruct (Hall l Hin) as (Hzip & _ & _).
  assert (Hne : ({[ AStr "33131" ]} : gset atom) <> ∅).
  { apply (bool_decide_unpack _). vm_compute. exact I. }
  specialize (Hzip Hne). apply elem_of_singleton in Hzip. congruence.
Defined.

(** ** The result sink *)

Lemma append_inj_length (s1 s2 t1 t2 : string) :
  String.length s1 = String.length s2 ->
  s1 +:+ t1 = s2 +:+ t2 -> s1 = s2 /\ t1 = t2.
Proof.
  revert s2. induction s1 as [|c s1 IH]; intros [|d s2] Hlen Heq;
    try discriminate; simpl in *.
  - auto.
  - injection Heq as -> Heq. injection Hlen as Hlen.
    destruct (IH s2 Hlen Heq) as [-> ->]. auto.
Qed.

Lemma length_append (s t : string) :
  String.length (s +:+ t) = (String.length s + String.length t)%nat.
Proof. induction s as [|c s IH]; simpl; [reflexivity | now rewrite IH]. Qed.

Lemma length_zero_pad width n : String.length (zero_pad width n) = width.
Proof.
  revert n. induction width as [|w IH]; intros n; simpl; [reflexivity|].
  rewrite length_append, IH. simpl. lia.
Qed.

Lemma digit_char_inj (d e : nat) :
  (d < 10)%nat -> (e < 10)%nat -> digit_char d = digit_char e -> d = e.
Proof.
  intros Hd He Heq. unfold digit_char in Heq.
  apply (f_equal nat_of_ascii) in Heq.
  rewrite !nat_ascii_embedding in Heq by lia. lia.
Qed.

Lemma zero_pad_inj width n m :
  zero_pad width n = zero_pad width m ->
  (n mod 10 ^ width = m mod 10 ^ width)%nat.
Proof.
  revert n m. induction width as [|w IH]; intros n m Heq.
  - change (10 ^ 0)%nat with 1%nat. now rewrite !Nat.mod_1_r.
  - cbn [zero_pad] in Heq.
    apply append_inj_length in Heq as [Hhigh Hlow];
      [|now rewrite !length_zero_pad].
    assert (Hd : (n mod 10 = m mod 10)%nat).
    { apply digit_char_inj; try (apply Nat.mod_upper_bound; lia).
      now injection Hlow. }
    apply IH in Hhigh.
    rewrite Nat.pow_succ_r', !Nat.Div0.mod_mul_r. now rewrite Hd, Hhigh.
Qed.

Lemma zero_pad_inj_small width n m :
  (n < 10 ^ width)%nat -> (m < 10 ^ width)%nat ->
  zero_pad width n = zero_pad width m -> n = m.
Proof.
  intros Hn Hm Heq. apply zero_pad_inj in Heq.
  now rewrite !Nat.mod_small in Heq.
Qed.

Lemma strftime_inj (t1 t2 : datetime) :
  valid_datetime t1 -> valid_datetime t2 ->
  strftime t1 = strftime t2 -> to_the_second t1 = to_the_second t2.
Proof.
  intros (Hy1 & Hmo1 & Hd1 & Hh1 & Hmi1 & Hs1 & _)
         (Hy2 & Hmo2 & Hd2 & Hh2 & Hmi2 & Hs2 & _) Heq.
  unfold strftime in Heq.
  apply append_inj_length in Heq as [Hy Heq]; [|now rewrite !length_zero_pad].
  apply append_inj_length in Heq as [Hmo Heq]; [|now rewrite !length_zero_pad].
  apply append_inj_length in Heq as [Hd Heq]; [|now rewrite !length_zero_pad].
  apply (append_inj_length "_" "_") in Heq as [_ Heq]; [|reflexivity].
  apply append_inj_length in Heq as [Hh Heq]; [|now rewrite !length_zero_pad].
  apply append_inj_length in Heq as [Hmi Hs]; [|now rewrite !length_zero_pad].
  apply zero_pad_inj_small in Hy; [|simpl; lia..].
  apply zero_pad_inj_small in Hmo; [|simpl; lia..].
  apply zero_pad_inj_small in Hd; [|simpl; lia..].
  apply zero_pad_inj_small in Hh; [|simpl; lia..].
  apply zero_pad_inj_small in Hmi; [|simpl; lia..].
  apply zero_pad_inj_small in Hs; [|simpl; lia..].
  unfold to_the_second. congruence.
Qed.

Lemma length_strftime t : String.length (strftime t) = 15%nat.
Proof. unfold strftime. rewrite !length_append, !length_zero_pad. reflexivity. Qed.

Lemma csv_filename_inj (t1 t2 : datetime) :
  valid_datetime t1 -> valid_datetime t2 ->
  csv_filename t1 = csv_filename t2 <-> to_the_second t1 = to_the_second t2.
Proof.
  intros Hv1 Hv2. split.
  - intros Heq. unfold csv_filename in Heq.
    apply (append_inj_length results_dir results_dir) in Heq as [_ Heq];
      [|reflexivity].
    apply (append_inj_length "/miami_listings_" "/miami_listings_") in Heq
      as [_ Heq]; [|reflexivity].
    apply append_inj_length in Heq as [Heq _]; [|now rewrite !length_strftime].
    now apply strftime_inj.
  - unfold to_the_second, csv_filename, strftime. intros [= -> -> -> -> -> ->].
    reflexivity.
Qed.

(** C9, as the code has it.  Two runs with something to save write to
    the same file name exactly when they call [save_results] within the
    same second of local time; runs saving at different seconds get
    different names. *)
Theorem file_names_distinct_across_seconds
    (t1 t2 : datetime) (l1 l2 : listing) (rows1 rows2 : list listing)
    (fs1 fs2 : gmap string value) :
  valid_datetime t1 -> valid_datetime t2 ->
  written (trace_of (save_results t1 (l1 :: rows1) fs1))
    = [(csv_filename t1, l1 :: rows1)]
  /\ written (trace_of (save_results t2 (l2 :: rows2) fs2))
    = [(csv_filename t2, l2 :: rows2)]
  /\ (csv_filename t1 = csv_filename t2 <-> to_the_second t1 = to_the_second t2).
Proof.
  intros Hv1 Hv2. split; [reflexivity|]. split; [reflexivity|].
  now apply csv_filename_inj.
Qed.

Lemma valid_demo_now : valid_datetime demo_now.
Proof. unfold valid_datetime, demo_now. cbn [year month day hour minute second microsecond]. lia. Qed.

Lemma valid_demo_later : valid_datetime demo_later.
Proof. unfold valid_datetime, demo_later. cbn [year month day hour minute second microsecond]. lia. Qed.

Lemma file_names_distinct_across_seconds_witness :
  csv_filename demo_now <> csv_filename (DateTime 2024 1 2 3 4 6 0).
Proof.
  assert (Hv : valid_datetime (DateTime 2024 1 2 3 4 6 0)).
  { unfold valid_datetime. cbn [year month day hour minute second microsecond]. lia. }
  intros Heq.
  apply (proj1 (proj2 (proj2 (file_names_distinct_across_seconds
           demo_now (DateTime 2024 1 2 3 4 6 0) listing_a listing_a [] []
           init_filters init_filters valid_demo_now Hv)))) in Heq.
  discriminate Heq.
Defined.

(** C9, as stated, fails: two distinct runs, each with a listing to save,
    that reach [save_results] at different instants of the same second
    write to the same file. *)
Lemma same_second_runs_collide :
  demo_now <> demo_later
  /\ valid_datetime demo_now /\ valid_datetime demo_later
  /\ written (trace_of (save_results demo_now [listing_a] init_filters))
     = [("scraping_results/miami_listings_20240102_030405.csv", [listing_a])]
  /\ written (trace_of (save_results demo_later [listing_b] only_33131))
     = [("scraping_results/miami_listings_20240102_030405.csv", [listing_b])].
Proof.
  split; [discriminate|].
  split; [exact valid_demo_now|]. split; [exact valid_demo_later|].
  split; vm_compute; reflexivity.
Qed.

(** ** Setting the filters *)

Lemma set_filters_filters kwargs fs :
  result_of (set_filters kwargs fs) = Ok tt
  /\ filters_of (set_filters kwargs fs) = foldl set_filter fs kwargs.
Proof.
  revert fs. induction kwargs as [|[key v] kwargs IH]; intros fs.
  - split; reflexivity.
  - cbn [set_filters foldl]. unfold bind, set_filter at 2. cbn [fst snd].
    destruct (decide (is_Some (fs !! key))) as [Hin|Hout].
    + unfold put_filter.
      destruct (IH (<[key := stored_value key v]> fs)) as [Hr Hf].
      destruct (set_filters kwargs _) as [[r fs'] t]. auto.
    + unfold emit. destruct (IH fs) as [Hr Hf].
      destruct (set_filters kwargs fs) as [[r fs'] t]. auto.
Qed.

Lemma set_filter_keeps_keys fs kv key :
  is_Some (fs !! key) -> is_Some (set_filter fs kv !! key).
Proof.
  intros Hin. unfold set_filter. case_decide; [|exact Hin].
  destruct (decide (kv.1 = key)) as [->|Hne].
  - rewrite lookup_insert_eq. eauto.
  - now rewrite lookup_insert_ne.
Qed.

Lemma foldl_set_filter_keeps_keys kwargs fs key :
  is_Some (fs !! key) -> is_Some (foldl set_filter fs kwargs !! key).
Proof.
  revert fs. induction kwargs as [|kv kwargs IH]; intros fs Hin; [exact Hin|].
  simpl. apply IH. now apply set_filter_keeps_keys.
Qed.

Lemma foldl_set_filter_other kwargs fs key :
  key ∉ kwargs.*1 -> foldl set_filter fs kwargs !! key = fs !! key.
Proof.
  revert fs. induction kwargs as [|kv kwargs IH]; intros fs Hnot; [reflexivity|].
  simpl in *. apply not_elem_of_cons in Hnot as [Hne Hnot].
  rewrite (IH _ Hnot). unfold set_filter. case_decide; [|reflexivity].
  now rewrite lookup_insert_ne.
Qed.

(** What [set_filters] leaves under ['zip_codes']. *)
Lemma set_filters_zip_codes before after v fs :
  is_Some (fs !! "zip_codes") ->
  "zip_codes" ∉ after.*1 ->
  filters_of (set_filters (before ++ ("zip_codes", v) :: after) fs) !! "zip_codes"
  = Some (stored_value "zip_codes" v).
Proof.
  intros Hin Hafter.
  rewrite (proj2 (set_filters_filters _ _)), foldl_app. cbn [foldl].
  rewrite (foldl_set_filter_other _ _ _ Hafter).
  unfold set_filter at 1. cbn [fst snd].
  rewrite decide_True by now apply foldl_set_filter_keeps_keys.
  apply lookup_insert_eq.
Qed.

(** C4, as the code has it.  A list or a set given for ['zip_codes'] is
    stored as the set of the strings of its items; any other value, a
    tuple, a dict-keys view or a generator among them, is stored as it
    was given. *)
Theorem zip_codes_normalized_for_list_and_set
    (before after : list (string * value)) (v : value) (fs : gmap string value) :
  is_Some (fs !! "zip_codes") ->
  "zip_codes" ∉ after.*1 ->
  exists stored,
    filters_of (set_filters (before ++ ("zip_codes", v) :: after) fs) !! "zip_codes"
    = Some stored
    /\ match v with
       | VList items =>
           set_of_strings stored
           /\ exists elems, stored = VSet elems
              /\ forall a, a ∈ elems <-> exists x, x ∈ items /\ a = AStr (py_str x)
       | VSet given =>
           set_of_strings stored
           /\ exists elems, stored = VSet elems
              /\ forall a, a ∈ elems <-> exists x, x ∈ given /\ a = AStr (py_str x)
       | _ => stored = v
       end.
Proof.
  intros Hin Hafter. exists (stored_value "zip_codes" v).
  split; [now apply set_filters_zip_codes|].
  assert (Hset : forall items,
             set_of_strings (set_of_strs items)
             /\ exists elems, set_of_strs items = VSet elems
                /\ forall a, a ∈ elems <-> exists x, x ∈ items /\ a = AStr (py_str x)).
  { intros items. split.
    - intros a Ha. apply elem_of_list_to_set, list_elem_of_fmap in Ha as (x & -> & _).
      eauto.
    - eexists. split; [reflexivity|]. intros a.
      rewrite elem_of_list_to_set, list_elem_of_fmap.
      split; intros (x & H1 & H2); exists x; auto. }
  destruct v as [a|items|given|items|keys|pending]; try reflexivity.
  - apply Hset.
  - cbn [stored_value String.eqb]. simpl.
    destruct (Hset (elements given)) as (Hs & elems & He & Hiff).
    split; [exact Hs|]. exists elems. split; [exact He|].
    intros a. rewrite Hiff. setoid_rewrite elem_of_elements. reflexivity.
Qed.

Lemma zip_codes_normalized_for_list_and_set_witness :
  filters_of (set_filters [("min_price", VAtom (AInt 1000));
                           ("zip_codes", VList [AInt 33131; AStr "33125"]);
                           ("colour", VAtom (AStr "blue"))] init_filters)
    !! "zip_codes"
  = Some (VSet {[ AStr "33131"; AStr "33125" ]}).
Proof.
  destruct (zip_codes_normalized_for_list_and_set
              [("min_price", VAtom (AInt 1000))] [("colour", VAtom (AStr "blue"))]
              (VList [AInt 33131; AStr "33125"]) init_filters)
    as (stored & Hstored & _ & elems & -> & Hiff).
  - exists (VSet ∅). reflexivity.
  - apply (bool_decide_unpack _). vm_compute. exact I.
  - simpl app in Hstored. rewrite Hstored. f_equal. f_equal.
    apply set_eq. intros a. rewrite Hiff.
    rewrite elem_of_union, !elem_of_singleton. split.
    + intros (x & Hx & ->).
      apply elem_of_cons in Hx as [-> | Hx]; [left; reflexivity|].
      apply elem_of_cons in Hx as [-> | Hx]; [right; reflexivity|].
      now apply elem_of_nil in Hx.
    + intros [-> | ->].
      * exists (AInt 33131). split; [apply list_elem_of_here | reflexivity].
      * exists (AStr "33125"). split; [|reflexivity].
        apply list_elem_of_further, list_elem_of_here.
Defined.

(** C4, as stated, fails: a tuple of ZIP codes, and the dict-keys view
    that [main] itself passes, are stored as they are, not as a set of
    strings. *)
Lemma tuple_of_zip_codes_is_not_normalized :
  filters_of (set_filters [("zip_codes", VTuple [AInt 33131; AInt 33125])] init_filters)
    !! "zip_codes"
  = Some (VTuple [AInt 33131; AInt 33125])
  /\ ~ set_of_strings (VTuple [AInt 33131; AInt 33125])
  /\ filters_of (set_filters main_kwargs init_filters) !! "zip_codes"
     = Some (VDictKeys (AStr <$> miami_keys))
  /\ ~ set_of_strings (VDictKeys (AStr <$> miami_keys)).
Proof.
  split; [vm_compute; reflexivity|]. split; [intros []|].
  split; [vm_compute; reflexivity | intros []].
Qed.

(** ** Extraction of one listing *)

(** A page without title, price or address, or without any other located
    field, gives no listing, and [scrape_listing] returns normally: the
    listing is skipped and the caller goes on. *)
Lemma missing_field_is_skipped (requests_get : string -> http_result)
    (target : string) (fs : gmap string value) (status : Z) (page : soup) :
  requests_get target = Response status page ->
  h1_listing_title page = None \/ div_price page = None
  \/ span_bedrooms page = None \/ span_bathrooms page = None
  \/ span_sqft page = None \/ div_address page = None
  \/ div_description page = None ->
  result_of (scrape_listing requests_get target fs) = Ok None.
Proof.
  intros Hget Hmiss.
  destruct (scrape_listing_result_Ok requests_get target fs) as [[l|] Hr];
    [|exact Hr].
  exfalso.
  destruct (scrape_listing_Some _ _ _ _ Hr)
    as (status' & page' & fs' & t & Hget' & _ & Hc).
  rewrite Hget in Hget'. injection Hget' as <- <-.
  exact (check_and_extract_missing target page fs Hmiss l fs' t Hc).
Qed.

(** The classifiers answer false, without raising, on a page without
    description. *)
Lemma classifiers_without_description (page : soup) :
  div_description page = None ->
  is_wheelchair_accessible page = false /\ accepts_section_8 page = false.
Proof.
  intros H. unfold is_wheelchair_accessible, accepts_section_8. now rewrite H.
Qed.

(** C5, where the code departs from it.  The page [/c] of the example
    site has every located field except the description; no filter is
    set.  The classifiers answer false, yet the extraction raises on the
    description, the listing is logged as an error and skipped. *)
Theorem page_without_description_is_skipped :
  let page := demo_listing "1 Grand Ave, Miami, FL 33133" None in
  demo_site TransportFault "/c" = Response 200 page
  /\ is_wheelchair_accessible page = false
  /\ accepts_section_8 page = false
  /\ result_of (scrape_listing (demo_site TransportFault) "/c" init_filters) = Ok None
  /\ trace_of (scrape_listing (demo_site TransportFault) "/c" init_filters)
     = [EGet "/c"; EErrorListing "/c"].
Proof. repeat split; vm_compute; reflexivity. Qed.

(** * Further properties *)

(** ** [set_filters] *)

Lemma set_filter_dom fs kv : dom (set_filter fs kv) = dom fs.
Proof.
  unfold set_filter. case_decide as Hin; [|reflexivity].
  rewrite dom_insert_L. apply subseteq_union_1_L, singleton_subseteq_l.
  now apply elem_of_dom.
Qed.

Lemma unknown_keys_dom fs1 fs2 kwargs :
  dom fs1 = dom fs2 -> unknown_keys fs1 kwargs = unknown_keys fs2 kwargs.
Proof. unfold unknown_keys. now intros ->. Qed.

Lemma set_filters_shape (kwargs : list (string * value)) (fs : gmap string value) :
  result_of (set_filters kwargs fs) = Ok tt
  /\ dom (filters_of (set_filters kwargs fs)) = dom fs
  /\ trace_of (set_filters kwargs fs) = EWarnUnknownFilter <$> unknown_keys fs kwargs.
Proof.
  revert fs. induction kwargs as [|[key v] kwargs IH]; intros fs.
  - repeat split; reflexivity.
  - cbn [set_filters]. unfold bind, unknown_keys. cbn [fmap list_fmap fst].
    rewrite filter_cons.
    destruct (decide (is_Some (fs !! key))) as [Hin|Hout].
    + unfold put_filter.
      destruct (IH (<[key := stored_value key v]> fs)) as (Hr & Hd & Ht).
      assert (Hdom : dom (<[key := stored_value key v]> fs) = dom fs).
      { rewrite dom_insert_L. apply subseteq_union_1_L, singleton_subseteq_l.
        now apply elem_of_dom. }
      rewrite (unknown_keys_dom _ fs _ Hdom), Hdom in *.
      destruct (set_filters kwargs _) as [[r fs'] t].
      unfold result_of, filters_of, trace_of in *. cbn [fst snd] in *.
      rewrite decide_False by (intros Hn; apply Hn; now apply elem_of_dom).
      auto.
    + unfold emit. destruct (IH fs) as (Hr & Hd & Ht).
      destruct (set_filters kwargs fs) as [[r fs'] t].
      unfold result_of, filters_of, trace_of in *. cbn [fst snd] in *.
      rewrite decide_True by (now rewrite elem_of_dom).
      subst. auto.
Qed.


(** X2. A known keyword other than ['zip_codes'] is stored as given, and
    what is stored is what the last occurrence of the keyword gave. *)
Theorem set_filters_stores_value
    (before after : list (string * value)) (key : string) (v : value)
    (fs : gmap string value) :
  is_Some (fs !! key) ->
  key <> "zip_codes" ->
  key ∉ after.*1 ->
  filters_of (set_filters (before ++ (key, v) :: after) fs) !! key = Some v.
Proof.
  intros Hin Hne Hafter.
  rewrite (proj2 (set_filters_filters _ _)), foldl_app. cbn [foldl].
  rewrite (foldl_set_filter_other _ _ _ Hafter).
  unfold set_filter at 1. cbn [fst snd].
  rewrite decide_True by now apply foldl_set_filter_keeps_keys.
  rewrite lookup_insert_eq. unfold stored_value.
  destruct (String.eqb_spec key "zip_codes"); [contradiction | reflexivity].
Qed.

Lemma set_filters_stores_value_witness :
  filters_of (set_filters [("property_type", VList [AStr "loft"]);
                           ("min_price", VAtom (AInt 900));
                           ("property_type", VList [AStr "condo"; AInt 2])]
                          init_filters) !! "property_type"
  = Some (VList [AStr "condo"; AInt 2]).
Proof.
  apply (set_filters_stores_value
           [("property_type", VList [AStr "loft"]); ("min_price", VAtom (AInt 900))]
           [] "property_type" (VList [AStr "condo"; AInt 2]) init_filters).
  - exists (VAtom ANone). reflexivity.
  - discriminate.
  - apply not_elem_of_nil.
Defined.

Lemma set_of_strs_elements (items : list atom) (elems : gset atom) :
  set_of_strs items = VSet elems ->
  set_of_strs (elements elems) = VSet elems.
Proof.
  unfold set_of_strs. intros [= <-]. f_equal. apply set_eq. intros a.
  rewrite !elem_of_list_to_set, !list_elem_of_fmap. split.
  - intros (x & -> & Hx).
    apply elem_of_elements, elem_of_list_to_set, list_elem_of_fmap in Hx
      as (y & -> & Hy).
    exists y. auto.
  - intros (y & -> & Hy). exists (AStr (py_str y)). split; [reflexivity|].
    apply elem_of_elements, elem_of_list_to_set, list_elem_of_fmap. eauto.
Qed.

Lemma stored_value_idempotent (v : value) :
  stored_value "zip_codes" (stored_value "zip_codes" v)
  = stored_value "zip_codes" v.
Proof.
  destruct v as [a|items|given|items|keys|pending]; try reflexivity;
    cbn [stored_value String.eqb Ascii.eqb Bool.eqb]; simpl.
  - now apply (set_of_strs_elements items).
  - now apply (set_of_strs_elements (elements given)).
Qed.

(** X3. Giving back to [set_filters] the ZIP filter it has stored changes
    nothing: the normalisation is idempotent. *)
Theorem set_filters_zip_codes_idempotent
    (v w : value) (fs : gmap string value) :
  is_Some (fs !! "zip_codes") ->
  filters_of (set_filters [("zip_codes", v)] fs) !! "zip_codes" = Some w ->
  filters_of (set_filters [("zip_codes", w)]
                          (filters_of (set_filters [("zip_codes", v)] fs)))
  = filters_of (set_filters [("zip_codes", v)] fs).
Proof.
  intros Hin Hw.
  rewrite !(proj2 (set_filters_filters _ _)) in *. cbn [foldl] in *.
  unfold set_filter in Hw at 1. cbn [fst snd] in Hw.
  rewrite decide_True in Hw by exact Hin.
  rewrite lookup_insert_eq in Hw. injection Hw as <-.
  unfold set_filter at 1. cbn [fst snd].
  rewrite decide_True by (now apply set_filter_keeps_keys).
  rewrite stored_value_idempotent.
  apply insert_id. unfold set_filter. cbn [fst snd].
  rewrite decide_True by exact Hin. apply lookup_insert_eq.
Qed.

Lemma set_filters_zip_codes_idempotent_witness :
  filters_of (set_filters [("zip_codes", VSet {[ AStr "33131"; AStr "33125" ]})]
     (filters_of (set_filters [("zip_codes", VList [AInt 33131; AStr "33125"])]
                              init_filters)))
  = filters_of (set_filters [("zip_codes", VList [AInt 33131; AStr "33125"])]
                            init_filters).
Proof.
  apply (set_filters_zip_codes_idempotent
           (VList [AInt 33131; AStr "33125"])
           (VSet {[ AStr "33131"; AStr "33125" ]}) init_filters).
  - exists (VSet ∅). reflexivity.
  - vm_compute. reflexivity.
Defined.

(** X4. One call of [set_filters] with all the keywords does what two
    calls with the keywords split between them do, warnings included. *)
Theorem set_filters_app
    (first rest : list (string * value)) (fs : gmap string value) :
  set_filters (first ++ rest) fs =
    (Ok tt,
     filters_of (set_filters rest (filters_of (set_filters first fs))),
     trace_of (set_filters first fs)
     ++ trace_of (set_filters rest (filters_of (set_filters first fs)))).
Proof.
  revert fs. induction first as [|[key v] first IH]; intros fs.
  - cbn [app set_filters]. unfold ret, filters_of, trace_of. cbn [fst snd app].
    destruct (set_filters_shape rest fs) as (Hr & _ & _).
    destruct (set_filters rest fs) as [[r fs'] t].
    unfold result_of in Hr. cbn [fst] in Hr. now subst.
  - cbn [app set_filters]. unfold bind.
    destruct (decide (is_Some (fs !! key))) as [Hin|Hout].
    + unfold put_filter. rewrite IH.
      destruct (set_filters first _) as [[r fs'] t]. reflexivity.
    + unfold emit. rewrite IH.
      destruct (set_filters first fs) as [[r fs'] t]. reflexivity.
Qed.

(** ** [extract_zip_code] *)

Lemma append_assoc (a b c : string) : (a +:+ b) +:+ c = a +:+ b +:+ c.
Proof.
  induction a as [|x a IH]; [reflexivity|].
  change (String x ((a +:+ b) +:+ c) = String x (a +:+ b +:+ c)). now rewrite IH.
Qed.



















(** ** The text fields of a listing *)

Lemma lstrip_nonspace c s : is_space c = false -> lstrip (String c s) = String c s.
Proof. intros H. cbn [lstrip]. now rewrite H. Qed.

Lemma lstrip_head s :
  lstrip s = EmptyString \/ exists c r, lstrip s = String c r /\ is_space c = false.
Proof.
  induction s as [|c s IH]; [now left|].
  cbn [lstrip]. destruct (is_space c) eqn:Hc; [exact IH|]. right. eauto.
Qed.

Lemma rstrip_head c s :
  is_space c = false -> exists r, rstrip (String c s) = String c r.
Proof.
  intros Hc. cbn [rstrip]. destruct (rstrip s); [rewrite Hc|]; eauto.
Qed.

Lemma rstrip_idempotent s : rstrip (rstrip s) = rstrip s.
Proof.
  induction s as [|c s IH]; [reflexivity|].
  cbn [rstrip]. destruct (rstrip s) as [|d r] eqn:Hr.
  - destruct (is_space c) eqn:Hc; [reflexivity|]. cbn [rstrip]. now rewrite Hc.
  - cbn [rstrip] in *. destruct (rstrip r) as [|e r'] eqn:Hr'.
    + destruct (is_space d); [discriminate|]. now rewrite IH.
    + now rewrite IH.
Qed.

Lemma strip_idempotent s : strip (strip s) = strip s.
Proof.
  unfold strip. destruct (lstrip_head s) as [-> | (c & r & -> & Hc)]; [reflexivity|].
  destruct (rstrip_head c r Hc) as [r' Hr]. rewrite Hr at 1.
  rewrite (lstrip_nonspace _ _ Hc), <- Hr. apply rstrip_idempotent.
Qed.

(** X7. Every text field of a listing that [scrape_listing] returns is
    stripped: stripping it again gives the field back, the stored URL is
    the URL that was requested, and the two flags are the classifiers'
    answers on the fetched page. *)
Theorem returned_listing_is_stripped
    (requests_get : string -> http_result) (target : string)
    (fs : gmap string value) (l : listing) :
  result_of (scrape_listing requests_get target fs) = Ok (Some l) ->
  strip (title l) = title l /\ strip (price l) = price l
  /\ strip (bedrooms l) = bedrooms l /\ strip (bathrooms l) = bathrooms l
  /\ strip (sqft l) = sqft l /\ strip (address l) = address l
  /\ strip (description l) = description l
  /\ url l = target
  /\ exists status page,
       requests_get target = Response status page
       /\ zip_code l = extract_zip_code page
       /\ wheelchair_accessible l = is_wheelchair_accessible page
       /\ section_8_accepted l = accepts_section_8 page.
Proof.
  intros Hr.
  destruct (scrape_listing_Some _ _ _ _ Hr)
    as (status & page & fs' & t & Hget & _ & Hc).
  apply check_and_extract_Some in Hc
    as ((t0 & p & b & ba & sq & ad & de & _ & _ & _ & _ & _ & _ & _ & ->) & _).
  cbn [title price bedrooms bathrooms sqft address description url
       zip_code wheelchair_accessible section_8_accepted].
  rewrite !strip_idempotent.
  repeat (split; [reflexivity|]). exists status, page. auto.
Qed.

Lemma returned_listing_is_stripped_witness :
  strip (title listing_b) = title listing_b /\ url listing_b = "/b".
Proof.
  assert (Hr : result_of (scrape_listing (demo_site TransportFault) "/b" init_filters)
               = Ok (Some listing_b)) by (vm_compute; reflexivity).
  destruct (returned_listing_is_stripped _ _ _ _ Hr) as (Ht & _ & _ & _ & _ & _ & _ & Hu & _).
  split; [exact Ht | exact Hu].
Defined.

(** ** Exceptions and traces, whatever the filters hold *)

Lemma trace_of_bind {A B} (m : M A) (k : A -> M B) fs :
  trace_of (bind m k fs) =
    match m fs with
    | (Ok a, fs1, t1) => t1 ++ trace_of (k a fs1)
    | (Raised, _, t1) => t1
    end.
Proof.
  unfold bind. destruct (m fs) as [[[a|] fs1] t1]; [|reflexivity].
  destruct (k a fs1) as [[r fs2] t2]. reflexivity.
Qed.

Lemma emits_only_bind {A B} P (m : M A) (k : A -> M B) :
  emits_only P m -> (forall a, emits_only P (k a)) -> emits_only P (bind m k).
Proof.
  intros Hm Hk fs. rewrite trace_of_bind. specialize (Hm fs).
  destruct (m fs) as [[[a|] fs1] t1]; [|exact Hm].
  apply Forall_app. split; [exact Hm | apply Hk].
Qed.

Lemma emits_only_try_except {A} P (body handler : M A) :
  emits_only P body -> emits_only P handler -> emits_only P (try_except body handler).
Proof.
  intros Hb Hh fs. unfold try_except. specialize (Hb fs).
  destruct (body fs) as [[[a|] fs1] t1]; [exact Hb|].
  specialize (Hh fs1). destruct (handler fs1) as [[r fs2] t2].
  apply Forall_app. split; [exact Hb | exact Hh].
Qed.

Lemma emits_only_ret {A} P (a : A) : emits_only P (ret a).
Proof. intros fs. constructor. Qed.

Lemma emits_only_raise {A} P : emits_only P (@raise A).
Proof. intros fs. constructor. Qed.

Lemma emits_only_get_filter P key : emits_only P (get_filter key).
Proof. intros fs. unfold get_filter. destruct (fs !! key); constructor. Qed.

Lemma emits_only_put_filter P key v : emits_only P (put_filter key v).
Proof. intros fs. constructor. Qed.

Lemma emits_only_emit (P : event -> Prop) e : P e -> emits_only P (emit e).
Proof. intros He fs. repeat constructor. exact He. Qed.

Lemma emits_only_text_strip P found : emits_only P (text_strip found).
Proof. destruct found; [apply emits_only_ret | apply emits_only_raise]. Qed.

Lemma emits_only_filter_contains P key x : emits_only P (filter_contains key x).
Proof.
  unfold filter_contains. apply emits_only_bind; [apply emits_only_get_filter|].
  intros [[| | |s]|l|s|l|l|l]; try apply emits_only_ret; try apply emits_only_raise.
  destruct (gen_contains (AStr x) l) as [found rest].
  apply emits_only_bind; [apply emits_only_put_filter | intros; apply emits_only_ret].
Qed.

Lemma emits_only_join_filter P set_iter sep key :
  emits_only P (join_filter set_iter sep key).
Proof.
  unfold join_filter. apply emits_only_bind; [apply emits_only_get_filter|].
  intros v. apply emits_only_bind.
  - destruct v as [[| | |s]|l|s|l|l|l]; try apply emits_only_ret;
      try apply emits_only_raise.
    apply emits_only_bind; [apply emits_only_put_filter | intros; apply emits_only_ret].
  - intros items. destruct (as_strs items); [apply emits_only_ret | apply emits_only_raise].
Qed.

Lemma emits_only_build_search_url P repr_container set_iter :
  emits_only P (build_search_url repr_container set_iter).
Proof.
  unfold build_search_url.
  repeat (apply emits_only_bind; [try apply emits_only_get_filter | intros ?]);
    try apply emits_only_ret.
  destruct (truthy _); [|apply emits_only_ret].
  apply emits_only_bind; [apply emits_only_join_filter | intros; apply emits_only_ret].
Qed.

Lemma emits_only_check_and_extract P target page :
  emits_only P (check_and_extract target page).
Proof.
  unfold check_and_extract.
  apply emits_only_bind; [apply emits_only_get_filter | intros wa].
  destruct (_ && _)%bool; [apply emits_only_ret|].
  apply emits_only_bind; [apply emits_only_get_filter | intros s8].
  destruct (_ && _)%bool; [apply emits_only_ret|].
  repeat (apply emits_only_bind; [apply emits_only_text_strip | intros ?]).
  apply emits_only_bind; [apply emits_only_get_filter | intros zc].
  destruct (truthy zc); [|apply emits_only_ret].
  apply emits_only_bind; [apply emits_only_filter_contains | intros present].
  destruct (negb present); apply emits_only_ret.
Qed.

Lemma Forall_no_event (t : list event) : Forall no_event t -> t = [].
Proof. destruct t as [|e t]; [reflexivity|]. intros H. now inversion H. Qed.

(** X9. Whatever the filters hold and whatever the site answers,
    [scrape_listing] returns without raising, after exactly one request;
    it logs at most one error, and then returns no listing. *)
Theorem scrape_listing_one_request
    (requests_get : string -> http_result) (target : string)
    (fs : gmap string value) :
  (exists r, result_of (scrape_listing requests_get target fs) = Ok r
             /\ trace_of (scrape_listing requests_get target fs) = [EGet target])
  \/ (result_of (scrape_listing requests_get target fs) = Ok None
      /\ trace_of (scrape_listing requests_get target fs)
         = [EGet target; EErrorListing target]).
Proof.
  destruct (fetch_cases requests_get target fs) as [(status & body & Hget & Hok & _) | Hf].
  - rewrite (scrape_listing_fetched _ _ _ _ _ Hget Hok).
    pose proof (Forall_no_event _ (emits_only_check_and_extract no_event target body fs))
      as Ht.
    destruct (check_and_extract target body fs) as [[[r|] fs'] t];
      unfold trace_of in Ht; cbn [snd] in Ht; subst t.
    + left. exists r. split; reflexivity.
    + right. split; reflexivity.
  - right. rewrite (scrape_listing_unfetched _ _ _ Hf). split; reflexivity.
Qed.

Lemma returns_ret {A} (a : A) : returns (ret a).
Proof. intros fs. now exists a. Qed.

Lemma returns_emit e : returns (emit e).
Proof. intros fs. now exists tt. Qed.

Lemma result_of_bind {A B} (m : M A) (k : A -> M B) fs :
  result_of (bind m k fs) =
    match m fs with
    | (Ok a, fs1, _) => result_of (k a fs1)
    | (Raised, _, _) => Raised
    end.
Proof.
  unfold bind. destruct (m fs) as [[[a|] fs1] t1]; [|reflexivity].
  destruct (k a fs1) as [[r fs2] t2]. reflexivity.
Qed.

Lemma returns_bind {A B} (m : M A) (k : A -> M B) :
  returns m -> (forall a, returns (k a)) -> returns (bind m k).
Proof.
  intros Hm Hk fs. rewrite result_of_bind. destruct (Hm fs) as [a Ha].
  destruct (m fs) as [[r fs1] t1]. unfold result_of in Ha. cbn [fst] in Ha. subst r.
  apply Hk.
Qed.

Lemma returns_try_except {A} (body handler : M A) :
  returns handler -> returns (try_except body handler).
Proof.
  intros Hh fs. unfold try_except.
  destruct (body fs) as [[[a|] fs1] t1]; [now exists a|].
  destruct (Hh fs1) as [a Ha]. destruct (handler fs1) as [[r fs2] t2].
  exists a. exact Ha.
Qed.

Lemma written_not_csv (t : list event) : Forall not_csv t -> written t = [].
Proof.
  induction 1 as [|e t He _ IH]; [reflexivity|].
  destruct e; cbn in *; try exact IH. contradiction.
Qed.

Lemma written_warnings (keys : list string) :
  written (EWarnUnknownFilter <$> keys) = [].
Proof. induction keys as [|k keys IH]; [reflexivity | exact IH]. Qed.

Section Always.

Variable requests_get : string -> http_result.
Variable repr_container : value -> string.
Variable set_iter : gset atom -> list atom.

Lemma returns_scrape_listing target : returns (scrape_listing requests_get target).
Proof. intros fs. apply scrape_listing_result_Ok. Qed.

Lemma returns_scrape_links urls acc : returns (scrape_links requests_get urls acc).
Proof.
  revert acc. induction urls as [|u urls IH]; intros acc; [apply returns_ret|].
  cbn [scrape_links]. apply returns_bind; [apply returns_scrape_listing|].
  intros [l|]; apply IH.
Qed.

Lemma returns_page_loop n page acc :
  returns (page_loop requests_get repr_container set_iter n page acc).
Proof.
  revert page acc. induction n as [|n IH]; intros page acc; [apply returns_ret|].
  cbn [page_loop]. apply returns_bind.
  - apply returns_try_except. apply returns_bind; [apply returns_emit|].
    intros _. apply returns_ret.
  - intros [ls|]; [apply IH | apply returns_ret].
Qed.

Lemma emits_only_fetch P target :
  P (EGet target) -> emits_only P (fetch requests_get target).
Proof.
  intros HP. unfold fetch. apply emits_only_bind; [now apply emits_only_emit|].
  intros _. destruct (requests_get target) as [|status body]; [apply emits_only_raise|].
  destruct (_ && _)%bool; [apply emits_only_raise | apply emits_only_ret].
Qed.

Lemma not_csv_scrape_listing target :
  emits_only not_csv (scrape_listing requests_get target).
Proof.
  unfold scrape_listing. apply emits_only_try_except.
  - apply emits_only_bind; [now apply emits_only_fetch|].
    intros page. apply emits_only_check_and_extract.
  - apply emits_only_bind; [now apply emits_only_emit | intros; apply emits_only_ret].
Qed.

Lemma not_csv_scrape_links urls acc :
  emits_only not_csv (scrape_links requests_get urls acc).
Proof.
  revert acc. induction urls as [|u urls IH]; intros acc; [apply emits_only_ret|].
  cbn [scrape_links]. apply emits_only_bind; [apply not_csv_scrape_listing|].
  intros [l|]; apply IH.
Qed.

Lemma emits_only_hrefs P anchors : emits_only P (hrefs anchors).
Proof.
  induction anchors as [|[h|] anchors IH]; cbn [hrefs].
  - apply emits_only_ret.
  - apply emits_only_bind; [exact IH | intros; apply emits_only_ret].
  - apply emits_only_raise.
Qed.

Lemma not_csv_page_loop n page acc :
  emits_only not_csv (page_loop requests_get repr_container set_iter n page acc).
Proof.
  revert page acc. induction n as [|n IH]; intros page acc; [apply emits_only_ret|].
  cbn [page_loop]. apply emits_only_bind.
  - apply emits_only_try_except.
    + apply emits_only_bind; [|intros; apply emits_only_ret].
      unfold scrape_page. apply emits_only_bind.
      * unfold discover_links.
        apply emits_only_bind; [apply emits_only_build_search_url|]. intros base.
        apply emits_only_bind; [now apply emits_only_fetch|]. intros doc.
        apply emits_only_hrefs.
      * intros urls. apply emits_only_bind; [apply not_csv_scrape_links|].
        intros ls. apply emits_only_bind; [now apply emits_only_emit|].
        intros; apply emits_only_ret.
    + apply emits_only_bind; [now apply emits_only_emit | intros; apply emits_only_ret].
  - intros [ls|]; [apply IH | apply emits_only_ret].
Qed.

Lemma scrape_and_save_run max_pages now fs ls fs' t :
  scrape_listings requests_get repr_container set_iter max_pages fs = (Ok ls, fs', t) ->
  scrape_and_save requests_get repr_container set_iter max_pages now fs =
    (Ok tt, fs',
     [EInfo "Starting scraping process...";
      EInfo ("Searching in ZIP codes: " +:+ String.concat ", " miami_keys)]
     ++ t ++ trace_of (save_results now ls fs')
     ++ [EInfo ("Scraping completed! Found " +:+ pretty (length ls)
                +:+ " matching listings")]).
Proof.
  intros Hrun. unfold scrape_and_save, bind, emit.
  rewrite Hrun, !save_results_eq. unfold trace_of. simpl.
  rewrite <- ?app_assoc. reflexivity.
Qed.

(** X8. Whatever the filters hold and whatever the site answers, the
    driver returns a list without raising: every exception of a fetch,
    of an extraction or of the construction of the search URL is caught
    on the way. *)
Theorem driver_never_raises (max_pages : Z) (fs : gmap string value) :
  exists ls fs' t,
    scrape_listings requests_get repr_container set_iter max_pages fs = (Ok ls, fs', t).
Proof.
  destruct (returns_page_loop (Z.to_nat max_pages) 1 [] fs) as [ls Hls].
  unfold scrape_listings.
  destruct (page_loop requests_get repr_container set_iter (Z.to_nat max_pages) 1 [] fs)
    as [[r fs'] t].
  unfold result_of in Hls. cbn [fst] in Hls. subst r. eauto.
Qed.

Lemma run_written (now : datetime) (n : Z) (fs0 : gmap string value) :
  exists ls,
    result_of (scrape_listings requests_get repr_container set_iter n fs0) = Ok ls
    /\ written (trace_of (scrape_listings requests_get repr_container set_iter
                                          n fs0)) = []
    /\ written (trace_of (scrape_and_save requests_get repr_container set_iter
                                          n now fs0))
       = expected_files now ls.
Proof.
  destruct (returns_page_loop (Z.to_nat n) 1 [] fs0) as [ls Hls].
  pose proof (written_not_csv _ (not_csv_page_loop (Z.to_nat n) 1 [] fs0)) as Hw.
  fold (scrape_listings requests_get repr_container set_iter n fs0) in Hls, Hw.
  destruct (scrape_listings requests_get repr_container set_iter n fs0)
    as [[r fs'] t] eqn:Hs.
  unfold result_of in Hls. unfold trace_of in Hw. cbn [fst snd] in Hls, Hw. subst r.
  exists ls. split; [reflexivity|]. split; [exact Hw|].
  rewrite (scrape_and_save_run n now fs0 ls fs' t Hs).
  unfold trace_of at 1. cbn [snd].
  rewrite !written_app, Hw, save_results_eq. destruct ls; reflexivity.
Qed.

Lemma main_written (now : datetime) (fs : gmap string value) :
  exists ls,
    result_of (scrape_listings requests_get repr_container set_iter 10
                 (filters_of (set_filters main_kwargs fs))) = Ok ls
    /\ written (trace_of (main requests_get repr_container set_iter now fs))
       = expected_files now ls.
Proof.
  destruct (run_written now 10 (filters_of (set_filters main_kwargs fs)))
    as (ls & Hls & _ & Hw).
  exists ls. split; [exact Hls|].
  unfold main. rewrite trace_of_bind.
  destruct (set_filters_shape main_kwargs fs) as (Hr & _ & Ht).
  destruct (set_filters main_kwargs fs) as [[r fs1] t1].
  unfold result_of in Hr. unfold trace_of in Ht. unfold filters_of in Hw.
  cbn [fst snd] in Hr, Ht, Hw. subst r.
  now rewrite written_app, Hw, Ht, written_warnings.
Qed.

(** X10. A run hands nothing to the CSV writer while it scrapes, and
    then at most one file: none when the driver returned no listing,
    otherwise one file that holds exactly the listings the driver
    returned, in its order.  The same holds for [main], under the filters
    it sets. *)
Theorem run_writes_what_it_returns (max_pages : Z) (now : datetime)
    (fs : gmap string value) :
  (exists ls,
     result_of (scrape_listings requests_get repr_container set_iter max_pages fs)
     = Ok ls
     /\ written (trace_of (scrape_listings requests_get repr_container set_iter
                                           max_pages fs)) = []
     /\ written (trace_of (scrape_and_save requests_get repr_container set_iter
                                           max_pages now fs))
        = expected_files now ls)
  /\ (exists ls,
        result_of (scrape_listings requests_get repr_container set_iter 10
                     (filters_of (set_filters main_kwargs fs))) = Ok ls
        /\ written (trace_of (main requests_get repr_container set_iter now fs))
           = expected_files now ls).
Proof. split; [apply run_written | apply main_written]. Qed.

End Always.

(** ** Search pages that cannot be used *)

Lemma hrefs_missing anchors fs :
  None ∈ anchors -> hrefs anchors fs = (Raised, fs, []).
Proof.
  induction anchors as [|[h|] anchors IH]; intros Hin.
  - now apply elem_of_nil in Hin.
  - apply elem_of_cons in Hin as [Hin|Hin]; [discriminate|].
    cbn [hrefs]. apply bind_Raised. now apply IH.
  - reflexivity.
Qed.

Section BrokenPages.

Variable requests_get : string -> http_result.
Variable repr_container : value -> string.
Variable set_iter : gset atom -> list atom.

(** X11. An anchor without [href] on a search page costs the whole
    page and the rest of the run: none of the links of that page is
    requested, not even those before the anchor, no later page is
    fetched, and the driver returns what the earlier pages gave. *)
Theorem anchor_without_href_aborts_run
    (fs : gmap string value) (base : string) (max_pages status : Z)
    (pages : list (list string)) (doc : soup) :
  stable fs ->
  build_search_url repr_container set_iter fs = (Ok base, fs, []) ->
  pages_show requests_get base 1 pages ->
  (length pages < Z.to_nat max_pages)%nat ->
  requests_get (page_url base (1 + Z.of_nat (length pages))) = Response status doc ->
  status_ok status ->
  None ∈ a_listing_link doc ->
  let k := 1 + Z.of_nat (length pages) in
  exists t,
    gets t = visit_order base 1 pages
    /\ scrape_listings requests_get repr_container set_iter max_pages fs
       = (Ok (omap (accepted requests_get fs) (concat pages)), fs,
          t ++ [EGet (page_url base k); EErrorPage k]).
Proof.
  intros Hst Hb Hshow Hlt Hget Hok Hmiss k.
  destruct (page_loop_shown requests_get repr_container set_iter
              base pages 1 [] fs Hst Hb Hshow) as (t & Hg & _ & Hrun).
  exists t. split; [exact Hg|].
  unfold scrape_listings.
  replace (Z.to_nat max_pages)
    with (length pages + S (Z.to_nat max_pages - length pages - 1))%nat by lia.
  rewrite Hrun.
  assert (Hd : discover_links requests_get repr_container set_iter k fs
               = (Raised, fs, [EGet (page_url base k)])).
  { unfold discover_links. rewrite (bind_quiet_Ok _ _ _ _ Hb). unfold bind.
    rewrite (fetch_response _ _ _ _ _ Hget Hok), (hrefs_missing _ _ Hmiss).
    reflexivity. }
  now rewrite (page_loop_break _ _ _ _ _ _ _ _ Hd).
Qed.

Lemma as_strs_None items a :
  a ∈ items -> (forall s, a <> AStr s) -> as_strs items = None.
Proof.
  intros Hin Hns. unfold as_strs.
  destruct (mapM _ items) as [strs|] eqn:Hm; [|reflexivity].
  exfalso. assert (His : is_Some (mapM (fun a => match a with AStr s => Some s | _ => None end) items))
    by (rewrite Hm; eauto).
  apply mapM_is_Some in His. rewrite Forall_forall in His.
  destruct (His a Hin) as [s Hs]. destruct a; try discriminate. now apply (Hns s0).
Qed.

(** X12. A list, tuple or dict-keys view that holds an item that is not
    a string cannot be joined into the search URL: with such a ZIP filter
    a run with a positive budget makes no request at all, logs the error
    for page 1 and returns no listing. *)
Theorem non_string_zip_filter_blocks_run
    (fs : gmap string value) (v : value) (items : list atom) (a : atom)
    (max_pages : Z) :
  fs !! "zip_codes" = Some v ->
  sequence_of v = Some items ->
  a ∈ items -> (forall s, a <> AStr s) ->
  0 < max_pages ->
  scrape_listings requests_get repr_container set_iter max_pages fs
  = (Ok [], fs, [EErrorPage 1]).
Proof.
  intros Hzc Hseq Hin Hns Hpos.
  assert (Hb : build_search_url repr_container set_iter fs = (Raised, fs, [])).
  { unfold build_search_url. rewrite (bind_get_filter _ _ _ _ Hzc).
    assert (Htruthy : truthy v = true).
    { destruct v as [x|l|s|l|l|l]; try discriminate; injection Hseq as ->;
        simpl; apply negb_true_iff, bool_decide_eq_false; intros ->;
        now apply elem_of_nil in Hin. }
    rewrite Htruthy. apply bind_Raised, bind_Raised.
    unfold join_filter. rewrite (bind_get_filter _ _ _ _ Hzc).
    assert (Hitems : forall fs0,
               match v with
               | VAtom (AStr s) => ret (chars s)
               | VAtom _ => raise
               | VList l | VTuple l | VDictKeys l => ret l
               | VSet s => ret (set_iter s)
               | VGen l => bind (put_filter "zip_codes" (VGen [])) (fun _ => ret l)
               end fs0 = (Ok items, fs0, [])).
    { intros fs0. destruct v as [x|l|s|l|l|l]; try discriminate;
        injection Hseq as ->; reflexivity. }
    rewrite (bind_quiet_Ok _ _ _ _ (Hitems fs)).
    now rewrite (as_strs_None _ _ Hin Hns). }
  unfold scrape_listings.
  replace (Z.to_nat max_pages) with (S (Z.to_nat max_pages - 1)) by lia.
  apply (page_loop_break requests_get repr_container set_iter _ 1 [] []).
  unfold discover_links. now apply bind_Raised.
Qed.

End BrokenPages.

Lemma non_string_zip_filter_blocks_run_witness :
  scrape_listings (demo_site demo_page2) no_repr elements 5 tuple_of_ints
  = (Ok [], tuple_of_ints, [EErrorPage 1]).
Proof.
  apply (non_string_zip_filter_blocks_run (demo_site demo_page2) no_repr elements
           tuple_of_ints (VTuple [AInt 33131; AInt 33125])
           [AInt 33131; AInt 33125] (AInt 33131)).
  - reflexivity.
  - reflexivity.
  - apply list_elem_of_here.
  - discriminate.
  - lia.
Defined.

Lemma anchor_without_href_aborts_run_witness :
  result_of (scrape_listings (demo_site demo_page2_broken) no_repr elements 5 init_filters)
  = Ok [listing_a; listing_b; listing_e]
  /\ gets (trace_of (scrape_listings (demo_site demo_page2_broken) no_repr elements 5
                                     init_filters))
     = [page_url base_url 1; "/a"; "/b"; "/c"; "/d"; "/e"; page_url base_url 2].
Proof.
  destruct (anchor_without_href_aborts_run (demo_site demo_page2_broken) no_repr elements
              init_filters base_url 5 200 [demo_links]
              (Soup None None None None None None None [Some "/f"; None; Some "/a"])
              stable_init_filters build_init_filters
              (demo_first_page _ _ (or_introl eq_refl)))
    as (t & Hg & Hrun).
  - simpl. lia.
  - vm_compute. reflexivity.
  - unfold status_ok. lia.
  - apply list_elem_of_further, list_elem_of_here.
  - rewrite Hrun. split.
    + vm_compute. reflexivity.
    + change (trace_of (?r, init_filters, ?t0)) with t0.
      rewrite gets_app, Hg. vm_compute. reflexivity.
Defined.

(** ** ZIP filters that are not sets *)

(** How a returned listing got through the ZIP check. *)
Lemma check_and_extract_Some_zip target page fs l fs' t :
  check_and_extract target page fs = (Ok (Some l), fs', t) ->
  exists zc,
    fs !! "zip_codes" = Some zc
    /\ (truthy zc = false
        \/ exists fs1 t1,
             filter_contains "zip_codes" (extract_zip_code page) fs = (Ok true, fs1, t1)).
Proof.
  unfold check_and_extract. intros H.
  invert_get H.
  destruct (truthy v && negb (is_wheelchair_accessible page))%bool; [discriminate|].
  invert_get H.
  destruct (truthy v0 && negb (accepts_section_8 page))%bool; [discriminate|].
  do 7 invert_text H.
  invert_get H.
  exists v1. split; [assumption|].
  destruct (truthy v1); [right | now left].
  apply bind_Ok_inv in H as (present & fs1 & t1 & t2 & Hc & Hk & _).
  destruct present; [eauto|]. simpl in Hk. unfold ret in Hk. discriminate.
Qed.

Lemma filter_contains_sequence x fs v items :
  fs !! "zip_codes" = Some v -> sequence_of v = Some items ->
  filter_contains "zip_codes" x fs = (Ok (bool_decide (AStr x ∈ items)), fs, []).
Proof.
  intros Hzc Hseq. unfold filter_contains. rewrite (bind_get_filter _ _ _ _ Hzc).
  destruct v as [a|l|s|l|l|l]; try discriminate; injection Hseq as ->; reflexivity.
Qed.

Lemma stable_sequence fs v items :
  fs !! "zip_codes" = Some v -> sequence_of v = Some items -> stable fs.
Proof. intros Hzc Hseq x pending. rewrite Hzc. intros [= ->]. discriminate. Qed.

Lemma bind_moves {A B} (m : M A) (k : A -> M B) fs fs1 r0 :
  m fs = (r0, fs1, []) -> (forall a, quiet (k a) fs1) ->
  exists r, bind m k fs = (r, fs1, []).
Proof.
  intros Hm Hk. unfold bind. rewrite Hm. destruct r0 as [a|]; [|eauto].
  destruct (Hk a) as [r ->]. eauto.
Qed.

Lemma omap_all_None {A B} (f : A -> option B) (l : list A) :
  (forall x, f x = None) -> omap f l = [].
Proof.
  intros Hf. induction l as [|x l IH]; [reflexivity|].
  cbn [omap list_omap]. rewrite Hf. exact IH.
Qed.

Section OtherZipFilters.

Variable requests_get : string -> http_result.
Variable repr_container : value -> string.
Variable set_iter : gset atom -> list atom.

Lemma result_satisfies_flags fs target l :
  accepted requests_get fs target = Some l ->
  (forall wa, fs !! "wheelchair_accessible" = Some wa -> truthy wa = true ->
      wheelchair_accessible l = true)
  /\ (forall s8, fs !! "section_8_accepted" = Some s8 -> truthy s8 = true ->
      section_8_accepted l = true)
  /\ exists page fs' t,
       check_and_extract target page fs = (Ok (Some l), fs', t)
       /\ zip_code l = extract_zip_code page.
Proof.
  unfold accepted. intros Hacc.
  destruct (result_of (scrape_listing requests_get target fs)) as [r|] eqn:Hr;
    [|discriminate].
  subst r.
  destruct (scrape_listing_Some _ _ _ _ Hr) as (status & page & fs' & t' & _ & _ & Hc).
  pose proof Hc as Hc'.
  apply check_and_extract_Some in Hc'
    as ((t0 & p & b & ba & sq & ad & de & _ & _ & _ & _ & _ & _ & _ & ->)
        & Hwa & Hs8 & _).
  split; [exact Hwa|]. split; [exact Hs8|]. exists page, fs', t'. auto.
Qed.

Lemma accepted_sequence fs v items target l :
  fs !! "zip_codes" = Some v -> sequence_of v = Some items ->
  accepted requests_get fs target = Some l ->
  (items <> [] -> AStr (zip_code l) ∈ items)
  /\ (forall wa, fs !! "wheelchair_accessible" = Some wa -> truthy wa = true ->
      wheelchair_accessible l = true)
  /\ (forall s8, fs !! "section_8_accepted" = Some s8 -> truthy s8 = true ->
      section_8_accepted l = true).
Proof.
  intros Hzc Hseq Hacc.
  destruct (result_satisfies_flags _ _ _ Hacc)
    as (Hwa & Hs8 & page & fs' & t' & Hc & Hzip).
  split; [|split; [exact Hwa | exact Hs8]].
  intros Hne. rewrite Hzip.
  apply check_and_extract_Some_zip in Hc as (zc & Hzc' & Hcheck).
  rewrite Hzc in Hzc'. injection Hzc' as <-.
  destruct Hcheck as [Hfalsy | (fs1 & t1 & Hc)].
  - exfalso. destruct v as [a|l0|s|l0|l0|l0]; try discriminate;
      injection Hseq as ->; simpl in Hfalsy;
      apply negb_false_iff, bool_decide_eq_true in Hfalsy; contradiction.
  - rewrite (filter_contains_sequence _ _ _ _ Hzc Hseq) in Hc.
    injection Hc as Hc _ _. now apply bool_decide_eq_true in Hc.
Qed.

(** X13. Under a ZIP filter that is a list, a tuple or a dict-keys view
    (what is stored when the value was not given as a list or a set, as
    in [main]), the driver returns, and every listing it returns has its
    ZIP code among the items when there are any, is marked accessible
    when accessibility is required and marked as accepting Section 8
    when that is required. *)
Theorem result_satisfies_sequence_filter
    (fs : gmap string value) (v : value) (items : list atom) (max_pages : Z) :
  fs !! "zip_codes" = Some v ->
  sequence_of v = Some items ->
  exists ls,
    result_of (scrape_listings requests_get repr_container set_iter max_pages fs) = Ok ls
    /\ forall l, In l ls ->
         (items <> [] -> AStr (zip_code l) ∈ items)
         /\ (forall wa, fs !! "wheelchair_accessible" = Some wa -> truthy wa = true ->
             wheelchair_accessible l = true)
         /\ (forall s8, fs !! "section_8_accepted" = Some s8 -> truthy s8 = true ->
             section_8_accepted l = true).
Proof.
  intros Hzc Hseq.
  destruct (page_loop_stable requests_get repr_container set_iter
              (Z.to_nat max_pages) 1 [] fs (stable_sequence _ _ _ Hzc Hseq))
    as (seen & t & Hrun & _).
  exists (omap (accepted requests_get fs) seen). split.
  - unfold scrape_listings. now rewrite Hrun.
  - intros l Hin. apply list_elem_of_In, list_elem_of_omap in Hin as (target & _ & Hacc).
    exact (accepted_sequence _ _ _ _ _ Hzc Hseq Hacc).
Qed.

(** X17. Whatever the site answers, [main] on a fresh scraper writes at
    most one file, and every listing in it has one of the twelve Miami
    ZIP codes, is marked wheelchair accessible and is marked as accepting
    Section 8. *)
Theorem main_saves_only_matching_listings (now : datetime) :
  exists ls,
    written (trace_of (main requests_get repr_container set_iter now init_filters))
    = expected_files now ls
    /\ forall l, In l ls ->
         zip_code l ∈ miami_keys
         /\ wheelchair_accessible l = true
         /\ section_8_accepted l = true.
Proof.
  destruct (main_written requests_get repr_container set_iter now init_filters)
    as (ls & Hls & Hw).
  exists ls. split; [exact Hw|].
  set (fs := filters_of (set_filters main_kwargs init_filters)) in *.
  assert (Hzc : fs !! "zip_codes" = Some (VDictKeys (AStr <$> miami_keys)))
    by (vm_compute; reflexivity).
  assert (Hwa : fs !! "wheelchair_accessible" = Some (VAtom (ABool true)))
    by (vm_compute; reflexivity).
  assert (Hs8 : fs !! "section_8_accepted" = Some (VAtom (ABool true)))
    by (vm_compute; reflexivity).
  destruct (page_loop_stable requests_get repr_container set_iter
              (Z.to_nat 10) 1 [] fs (stable_sequence _ _ _ Hzc eq_refl))
    as (seen & t & Hrun & _).
  unfold scrape_listings in Hls. rewrite Hrun in Hls. injection Hls as <-.
  intros l Hin. apply list_elem_of_In, list_elem_of_omap in Hin as (target & _ & Hacc).
  destruct (accepted_sequence _ _ _ _ _ Hzc eq_refl Hacc) as (Hzip & Hfa & Hfs).
  split; [|split; [exact (Hfa _ Hwa eq_refl) | exact (Hfs _ Hs8 eq_refl)]].
  assert (Hne : AStr <$> miami_keys <> []) by discriminate.
  apply Hzip, list_elem_of_fmap in Hne as (s & [= ->] & Hs). exact Hs.
Qed.

(** X14. A generator given as ZIP filter is used up when the first
    search URL is built, and nothing can be found in it afterwards:
    whatever the site answers and whatever the budget, the driver returns
    no listing. *)
Theorem generator_zip_filter_returns_nothing
    (fs : gmap string value) (pending : list atom) (max_pages : Z) :
  fs !! "zip_codes" = Some (VGen pending) ->
  result_of (scrape_listings requests_get repr_container set_iter max_pages fs) = Ok [].
Proof.
  intros Hzc. set (fs' := <["zip_codes" := VGen []]> fs).
  assert (Hzc' : fs' !! "zip_codes" = Some (VGen [])) by apply lookup_insert_eq.
  assert (Hst : stable fs') by (intros x p; rewrite Hzc'; discriminate).
  assert (Hnone : forall target, accepted requests_get fs' target = None).
  { intros target. destruct (accepted requests_get fs' target) as [l|] eqn:Hacc;
      [|reflexivity].
    exfalso. destruct (result_satisfies_flags _ _ _ Hacc)
      as (_ & _ & page & fs1 & t1 & Hc & _).
    apply check_and_extract_Some_zip in Hc as (zc & Hzc1 & Hcheck).
    rewrite Hzc' in Hzc1. injection Hzc1 as <-.
    destruct Hcheck as [Hfalsy | (fs2 & t2 & Hc)]; [discriminate|].
    unfold filter_contains in Hc. rewrite (bind_get_filter _ _ _ _ Hzc') in Hc.
    discriminate. }
  assert (Hjoin : exists r,
             join_filter set_iter "," "zip_codes" fs = (r, fs', [])).
  { unfold join_filter. rewrite (bind_get_filter _ _ _ _ Hzc).
    unfold bind, put_filter, ret, raise. fold fs'.
    destruct (as_strs pending); eauto. }
  assert (Hbuild : exists r, build_search_url repr_container set_iter fs = (r, fs', [])).
  { unfold build_search_url. rewrite (bind_get_filter _ _ _ _ Hzc).
    cbn [truthy]. destruct Hjoin as [r0 Hj].
    destruct (bind_moves (join_filter set_iter "," "zip_codes")
                (fun s => ret ([] ++ ["zip_codes=" +:+ s])) fs fs' r0 Hj
                (fun a => quiet_ret _ fs')) as [r1 Hparams].
    apply (bind_moves _ _ fs fs' r1 Hparams). intros params.
    repeat (apply quiet_bind; [try apply quiet_get_filter | intros ?]);
      apply quiet_ret. }
  assert (Hdisc : forall page, exists r t,
             discover_links requests_get repr_container set_iter page fs = (r, fs', t)).
  { intros page. unfold discover_links. destruct Hbuild as [[base|] Hb].
    - unfold bind at 1. rewrite Hb.
      destruct (fetch_cases requests_get (page_url base page) fs')
        as [(status & body & _ & _ & Hf) | Hf].
      + unfold bind. rewrite Hf.
        destruct (quiet_hrefs (a_listing_link body) fs') as [r ->]. eauto.
      + rewrite (bind_Raised _ _ _ _ _ Hf). eauto.
    - rewrite (bind_Raised _ _ _ _ _ Hb). eauto. }
  unfold scrape_listings. destruct (Z.to_nat max_pages) as [|n]; [reflexivity|].
  cbn [page_loop]. destruct (Hdisc 1) as ([urls|] & t0 & Hd).
  - destruct (scrape_links_stable requests_get urls [] fs' Hst) as (t1 & Hl & _ & _).
    rewrite (omap_all_None _ _ Hnone) in Hl.
    destruct (page_loop_stable requests_get repr_container set_iter n (1 + 1) []
                fs' Hst) as (seen & t2 & Hrest & _).
    rewrite (omap_all_None _ _ Hnone) in Hrest.
    unfold bind at 1, try_except, bind at 1, scrape_page, bind at 1.
    rewrite Hd. unfold bind at 1. rewrite Hl. cbn [app].
    unfold bind at 1, emit, ret. cbn [app]. now rewrite Hrest.
  - unfold bind at 1, try_except, bind at 1, scrape_page, bind at 1.
    rewrite Hd. reflexivity.
Qed.

End OtherZipFilters.

Lemma result_satisfies_sequence_filter_witness :
  exists ls,
    result_of (scrape_listings (demo_site demo_page2) no_repr elements 2
                 (filters_of (set_filters main_kwargs init_filters))) = Ok ls
    /\ forall l, In l ls -> zip_code l ∈ miami_keys.
Proof.
  destruct (result_satisfies_sequence_filter (demo_site demo_page2) no_repr elements
              (filters_of (set_filters main_kwargs init_filters))
              (VDictKeys (AStr <$> miami_keys)) (AStr <$> miami_keys) 2)
    as (ls & Hrun & Hall).
  - vm_compute. reflexivity.
  - reflexivity.
  - exists ls. split; [exact Hrun|]. intros l Hin.
    destruct (Hall l Hin) as (Hzip & _ & _).
    assert (Hne : AStr <$> miami_keys <> []) by discriminate.
    apply Hzip, list_elem_of_fmap in Hne as (s & [= ->] & Hs). exact Hs.
Defined.

Lemma generator_zip_filter_returns_nothing_witness :
  result_of (scrape_listings (demo_site demo_page2) no_repr elements 2 generator_of_zips)
  = Ok [].
Proof.
  apply (generator_zip_filter_returns_nothing (demo_site demo_page2) no_repr elements
           generator_of_zips [AStr "33131"; AStr "33125"] 2).
  reflexivity.
Defined.

(** ** The filters a run looks at *)

Lemma reads_only_ret {A} keys (a : A) : reads_only keys (ret a).
Proof. intros fs1 fs2 H. auto. Qed.

Lemma reads_only_raise {A} keys : reads_only keys (@raise A).
Proof. intros fs1 fs2 H. auto. Qed.

Lemma reads_only_emit keys e : reads_only keys (emit e).
Proof. intros fs1 fs2 H. auto. Qed.

Lemma reads_only_get_filter keys key : key ∈ keys -> reads_only keys (get_filter key).
Proof.
  intros Hin fs1 fs2 H. unfold get_filter. rewrite (H key Hin).
  destruct (fs2 !! key); auto.
Qed.

Lemma reads_only_put_filter keys key v : reads_only keys (put_filter key v).
Proof.
  intros fs1 fs2 H. split; [reflexivity|]. split; [reflexivity|].
  intros k Hk. unfold put_filter, filters_of. cbn [fst snd].
  destruct (decide (key = k)) as [->|Hne].
  - now rewrite !lookup_insert_eq.
  - rewrite !lookup_insert_ne by exact Hne. now apply H.
Qed.

Lemma reads_only_bind {A B} keys (m : M A) (k : A -> M B) :
  reads_only keys m -> (forall a, reads_only keys (k a)) -> reads_only keys (bind m k).
Proof.
  intros Hm Hk fs1 fs2 H. destruct (Hm fs1 fs2 H) as (Hr & Ht & Hf).
  unfold bind.
  destruct (m fs1) as [[r1 f1] t1], (m fs2) as [[r2 f2] t2].
  unfold result_of, trace_of, filters_of in Hr, Ht, Hf. cbn [fst snd] in Hr, Ht, Hf.
  subst r2 t2. destruct r1 as [a|]; [|auto].
  destruct (Hk a f1 f2 Hf) as (Hr' & Ht' & Hf').
  destruct (k a f1) as [[r1' f1'] t1'], (k a f2) as [[r2' f2'] t2'].
  unfold result_of, trace_of, filters_of in *. cbn [fst snd] in *.
  subst. auto.
Qed.

Lemma reads_only_try_except {A} keys (body handler : M A) :
  reads_only keys body -> reads_only keys handler ->
  reads_only keys (try_except body handler).
Proof.
  intros Hb Hh fs1 fs2 H. destruct (Hb fs1 fs2 H) as (Hr & Ht & Hf).
  unfold try_except.
  destruct (body fs1) as [[r1 f1] t1], (body fs2) as [[r2 f2] t2].
  unfold result_of, trace_of, filters_of in Hr, Ht, Hf. cbn [fst snd] in Hr, Ht, Hf.
  subst r2 t2. destruct r1 as [a|]; [auto|].
  destruct (Hh f1 f2 Hf) as (Hr' & Ht' & Hf').
  destruct (handler f1) as [[r1' f1'] t1'], (handler f2) as [[r2' f2'] t2'].
  unfold result_of, trace_of, filters_of in *. cbn [fst snd] in *.
  subst. auto.
Qed.

Lemma reads_only_text_strip keys found : reads_only keys (text_strip found).
Proof. destruct found; [apply reads_only_ret | apply reads_only_raise]. Qed.

Lemma reads_only_hrefs keys anchors : reads_only keys (hrefs anchors).
Proof.
  induction anchors as [|[h|] anchors IH]; cbn [hrefs].
  - apply reads_only_ret.
  - apply reads_only_bind; [exact IH | intros; apply reads_only_ret].
  - apply reads_only_raise.
Qed.

Section FiltersRead.

Variable requests_get : string -> http_result.
Variable repr_container : value -> string.
Variable set_iter : gset atom -> list atom.
Variable keys : list string.
Hypothesis zip_read : "zip_codes" ∈ keys.
Hypothesis wheelchair_read : "wheelchair_accessible" ∈ keys.
Hypothesis section8_read : "section_8_accepted" ∈ keys.

Lemma reads_only_filter_contains x : reads_only keys (filter_contains "zip_codes" x).
Proof.
  unfold filter_contains. apply reads_only_bind; [now apply reads_only_get_filter|].
  intros [[| | |s]|l|s|l|l|l]; try apply reads_only_ret; try apply reads_only_raise.
  destruct (gen_contains (AStr x) l) as [found rest].
  apply reads_only_bind; [apply reads_only_put_filter | intros; apply reads_only_ret].
Qed.

Lemma reads_only_join_filter sep : reads_only keys (join_filter set_iter sep "zip_codes").
Proof.
  unfold join_filter. apply reads_only_bind; [now apply reads_only_get_filter|].
  intros v. apply reads_only_bind.
  - destruct v as [[| | |s]|l|s|l|l|l]; try apply reads_only_ret;
      try apply reads_only_raise.
    apply reads_only_bind; [apply reads_only_put_filter | intros; apply reads_only_ret].
  - intros items. destruct (as_strs items); [apply reads_only_ret | apply reads_only_raise].
Qed.

Lemma reads_only_fetch target : reads_only keys (fetch requests_get target).
Proof.
  unfold fetch. apply reads_only_bind; [apply reads_only_emit|].
  intros _. destruct (requests_get target) as [|status body]; [apply reads_only_raise|].
  destruct (_ && _)%bool; [apply reads_only_raise | apply reads_only_ret].
Qed.

Lemma reads_only_check_and_extract target page :
  reads_only keys (check_and_extract target page).
Proof.
  unfold check_and_extract.
  apply reads_only_bind; [now apply reads_only_get_filter | intros wa].
  destruct (_ && _)%bool; [apply reads_only_ret|].
  apply reads_only_bind; [now apply reads_only_get_filter | intros s8].
  destruct (_ && _)%bool; [apply reads_only_ret|].
  repeat (apply reads_only_bind; [apply reads_only_text_strip | intros ?]).
  apply reads_only_bind; [now apply reads_only_get_filter | intros zc].
  destruct (truthy zc); [|apply reads_only_ret].
  apply reads_only_bind; [apply reads_only_filter_contains | intros present].
  destruct (negb present); apply reads_only_ret.
Qed.

Lemma reads_only_scrape_listing target :
  reads_only keys (scrape_listing requests_get target).
Proof.
  unfold scrape_listing. apply reads_only_try_except.
  - apply reads_only_bind; [apply reads_only_fetch|].
    intros page. apply reads_only_check_and_extract.
  - apply reads_only_bind; [apply reads_only_emit | intros; apply reads_only_ret].
Qed.

Lemma reads_only_scrape_links urls acc :
  reads_only keys (scrape_links requests_get urls acc).
Proof.
  revert acc. induction urls as [|u urls IH]; intros acc; [apply reads_only_ret|].
  cbn [scrape_links]. apply reads_only_bind; [apply reads_only_scrape_listing|].
  intros [l|]; apply IH.
Qed.

Hypothesis min_price_read : "min_price" ∈ keys.
Hypothesis max_price_read : "max_price" ∈ keys.

Lemma reads_only_build_search_url :
  reads_only keys (build_search_url repr_container set_iter).
Proof.
  unfold build_search_url.
  repeat (apply reads_only_bind;
          [try (now apply reads_only_get_filter) | intros ?]);
    try apply reads_only_ret.
  destruct (truthy _); [|apply reads_only_ret].
  apply reads_only_bind; [apply reads_only_join_filter | intros; apply reads_only_ret].
Qed.

Lemma reads_only_page_loop n page acc :
  reads_only keys (page_loop requests_get repr_container set_iter n page acc).
Proof.
  revert page acc. induction n as [|n IH]; intros page acc; [apply reads_only_ret|].
  cbn [page_loop]. apply reads_only_bind.
  - apply reads_only_try_except.
    + apply reads_only_bind; [|intros; apply reads_only_ret].
      unfold scrape_page. apply reads_only_bind.
      * unfold discover_links.
        apply reads_only_bind; [apply reads_only_build_search_url|]. intros base.
        apply reads_only_bind; [apply reads_only_fetch|]. intros doc.
        apply reads_only_hrefs.
      * intros urls. apply reads_only_bind; [apply reads_only_scrape_links|].
        intros ls. apply reads_only_bind; [apply reads_only_emit|].
        intros; apply reads_only_ret.
    + apply reads_only_bind; [apply reads_only_emit | intros; apply reads_only_ret].
  - intros [ls|]; [apply IH | apply reads_only_ret].
Qed.

End FiltersRead.

Ltac elem_of_literal :=
  repeat (first [apply list_elem_of_here | apply list_elem_of_further]).

(** X15. A run looks at five filters only: the ZIP codes, the two flags
    and the two price bounds.  Two filter dictionaries that hold the same
    under these five give the same listings, the same requests and the
    same log: the bedroom, square-footage and property-type filters
    change nothing. *)
Theorem run_ignores_other_filters
    (requests_get : string -> http_result) (repr_container : value -> string)
    (set_iter : gset atom -> list atom)
    (fs1 fs2 : gmap string value) (max_pages : Z) :
  agree_on used_by_run fs1 fs2 ->
  result_of (scrape_listings requests_get repr_container set_iter max_pages fs1)
  = result_of (scrape_listings requests_get repr_container set_iter max_pages fs2)
  /\ trace_of (scrape_listings requests_get repr_container set_iter max_pages fs1)
     = trace_of (scrape_listings requests_get repr_container set_iter max_pages fs2).
Proof.
  intros Hagree.
  destruct (reads_only_page_loop requests_get repr_container set_iter used_by_run
              ltac:(elem_of_literal) ltac:(elem_of_literal) ltac:(elem_of_literal)
              ltac:(elem_of_literal) ltac:(elem_of_literal)
              (Z.to_nat max_pages) 1 [] fs1 fs2 Hagree) as (Hr & Ht & _).
  split; [exact Hr | exact Ht].
Qed.

(** X16. No listing is rejected for its price: [scrape_listing] looks
    at the ZIP codes and the two flags only, so that changing any other
    filter, the price bounds included, changes neither what it returns
    nor what it requests and logs. *)
Theorem listing_ignores_price_bounds
    (requests_get : string -> http_result)
    (fs1 fs2 : gmap string value) (target : string) :
  agree_on used_by_listing fs1 fs2 ->
  result_of (scrape_listing requests_get target fs1)
  = result_of (scrape_listing requests_get target fs2)
  /\ trace_of (scrape_listing requests_get target fs1)
     = trace_of (scrape_listing requests_get target fs2).
Proof.
  intros Hagree.
  destruct (reads_only_scrape_listing requests_get used_by_listing
              ltac:(elem_of_literal) ltac:(elem_of_literal) ltac:(elem_of_literal)
              target fs1 fs2 Hagree) as (Hr & Ht & _).
  split; [exact Hr | exact Ht].
Qed.

Lemma agree_three_bedrooms : agree_on used_by_run three_bedrooms init_filters.
Proof.
  intros k Hk. unfold used_by_run in Hk.
  repeat (apply elem_of_cons in Hk as [-> | Hk]; [reflexivity|]).
  now apply elem_of_nil in Hk.
Qed.

Lemma agree_cheap_only : agree_on used_by_listing cheap_only init_filters.
Proof.
  intros k Hk. unfold used_by_listing in Hk.
  repeat (apply elem_of_cons in Hk as [-> | Hk]; [reflexivity|]).
  now apply elem_of_nil in Hk.
Qed.

Lemma run_ignores_other_filters_witness :
  result_of (scrape_listings (demo_site demo_page2) no_repr elements 2 three_bedrooms)
  = Ok [listing_a; listing_b; listing_e; listing_f; listing_a].
Proof.
  rewrite (proj1 (run_ignores_other_filters (demo_site demo_page2) no_repr elements
                    three_bedrooms init_filters 2 agree_three_bedrooms)).
  vm_compute. reflexivity.
Defined.

Lemma listing_ignores_price_bounds_witness :
  result_of (scrape_listing (demo_site demo_page2) "/a" cheap_only)
  = Ok (Some listing_a).
Proof.
  rewrite (proj1 (listing_ignores_price_bounds (demo_site demo_page2)
                    cheap_only init_filters "/a" agree_cheap_only)).
  vm_compute. reflexivity.
Defined.

(** ** The pause between search pages *)



Section Pauses.

Variable requests_get : string -> http_result.
Variable repr_container : value -> string.
Variable set_iter : gset atom -> list atom.








End Pauses.

(** ** Search URLs *)

(** X21. The search pages of a run have different URLs: the URL of a
    page determines its number. *)
Theorem page_url_inj (base : string) (p q : Z) :
  page_url base p = page_url base q -> p = q.
Proof.
  unfold page_url. intros Heq.
  apply (append_inj_length base base) in Heq as [_ Heq]; [|reflexivity].
  apply (append_inj_length "&page=" "&page=") in Heq as [_ Heq]; [|reflexivity].
  now apply (inj pretty).
Qed.

Lemma page_url_inj_witness : page_url base_url 2 <> page_url base_url 10.
Proof.
  intros Heq. apply page_url_inj in Heq. discriminate Heq.
Defined.

(** ** The classifiers and the case of the text *)

Lemma lower_char_idempotent c : lower_char (lower_char c) = lower_char c.
Proof.
  unfold lower_char. destruct (is_upper c) eqn:Hup; [|now rewrite Hup].
  unfold is_upper in Hup. apply andb_true_iff in Hup as [Hlo Hhi].
  apply Nat.leb_le in Hlo, Hhi.
  assert (Hcode : code (ascii_of_nat (code c + 32)) = (code c + 32)%nat).
  { unfold code. apply nat_ascii_embedding. unfold code in *. lia. }
  replace (is_upper (ascii_of_nat (code c + 32))) with false; [reflexivity|].
  symmetry. unfold is_upper. rewrite Hcode. apply andb_false_iff. right.
  apply Nat.leb_gt. lia.
Qed.

Lemma lower_idempotent s : lower (lower s) = lower s.
Proof.
  induction s as [|c s IH]; [reflexivity|].
  cbn [lower]. now rewrite lower_char_idempotent, IH.
Qed.

(** X20. The classifiers do not see the case of the letters: two
    descriptions with the same lower-cased text are classified alike,
    and so is a description and its lower-cased text. *)
Theorem classifiers_ignore_case (page1 page2 : soup) (text1 text2 : string) :
  div_description page1 = Some text1 ->
  div_description page2 = Some text2 ->
  lower text1 = lower text2 ->
  is_wheelchair_accessible page1 = is_wheelchair_accessible page2
  /\ accepts_section_8 page1 = accepts_section_8 page2
  /\ is_wheelchair_accessible (described (lower text1)) = is_wheelchair_accessible page1
  /\ accepts_section_8 (described (lower text1)) = accepts_section_8 page1.
Proof.
  intros H1 H2 Heq. unfold is_wheelchair_accessible, accepts_section_8.
  rewrite H1, H2, Heq. cbn [div_description described].
  rewrite <- Heq, lower_idempotent. auto.
Qed.

Lemma classifiers_ignore_case_witness :
  accepts_section_8 (described "SECTION 8 WELCOME")
  = accepts_section_8 (described "Section 8 welcome").
Proof.
  apply (proj1 (proj2 (classifiers_ignore_case
           (described "SECTION 8 WELCOME") (described "Section 8 welcome")
           "SECTION 8 WELCOME" "Section 8 welcome" eq_refl eq_refl eq_refl))).
Defined.

Lemma occurs_in_trans (a b s : string) : occurs_in a b -> occurs_in b s -> occurs_in a s.
Proof.
  intros (p1 & q1 & ->) (p2 & q2 & ->).
  exists (p2 +:+ p1), (q1 +:+ q2). now rewrite !append_assoc.
Qed.

(** X19. Two of the five Section 8 phrases add nothing: a text that
    contains "section 8 accepted" or "section 8 welcome" contains
    "section 8", so the classifier answers as it would with the three
    other phrases alone. *)
Theorem section8_phrases_redundant (page : soup) :
  accepts_section_8 page =
    match div_description page with
    | Some text => any_in section8_core (lower text)
    | None => false
    end.
Proof.
  unfold accepts_section_8. destruct (div_description page) as [text|]; [|reflexivity].
  apply eq_true_iff_eq. rewrite !any_in_spec. split.
  - intros (k & Hin & Hocc). simpl in Hin.
    destruct Hin as [<- | [<- | [<- | [<- | [<- | []]]]]].
    + exists "section 8". split; [simpl; tauto | exact Hocc].
    + exists "section 8". split; [simpl; tauto|].
      apply (occurs_in_trans _ "section 8 accepted"); [|exact Hocc].
      now exists "", " accepted".
    + exists "section 8". split; [simpl; tauto|].
      apply (occurs_in_trans _ "section 8 welcome"); [|exact Hocc].
      now exists "", " welcome".
    + exists "housing choice voucher". split; [simpl; tauto | exact Hocc].
    + exists "hcv welcome". split; [simpl; tauto | exact Hocc].
  - intros (k & Hin & Hocc). exists k. split; [|exact Hocc].
    simpl in Hin. simpl. tauto.
Qed.

(** ** Where the listings come from *)

Section Provenance.

Variable requests_get : string -> http_result.
Variable repr_container : value -> string.
Variable set_iter : gset atom -> list atom.

Lemma page_loop_seen n page acc fs :
  stable fs ->
  exists seen t,
    page_loop requests_get repr_container set_iter n page acc fs
    = (Ok (acc ++ omap (accepted requests_get fs) seen), fs, t)
    /\ forall target, target ∈ seen -> target ∈ gets t.
Proof.
  intros Hst. revert page acc. induction n as [|n IH]; intros page acc.
  - exists [], []. split; [simpl; now rewrite app_nil_r|].
    intros target Hin. now apply elem_of_nil in Hin.
  - destruct (discover_links_stable requests_get repr_container set_iter page fs Hst)
      as ([links|] & t0 & Hd & _).
    + destruct (page_loop_step requests_get repr_container set_iter
                  page acc links t0 fs Hst Hd) as (t1 & Hg & _ & Hstep).
      rewrite Hstep.
      destruct (IH (page + 1) (acc ++ omap (accepted requests_get fs) links))
        as (seen & t2 & -> & Hsub).
      exists (links ++ seen), ((t0 ++ t1 ++ [ESleep 2]) ++ t2).
      rewrite omap_app, (app_assoc acc). split; [reflexivity|].
      intros target Hin. rewrite !gets_app, Hg.
      apply elem_of_app in Hin as [Hin|Hin].
      * apply elem_of_app. left. apply elem_of_app. right.
        apply elem_of_app. now left.
      * apply elem_of_app. right. now apply Hsub.
    + rewrite (page_loop_break _ _ _ n page acc t0 fs Hd).
      exists [], (t0 ++ [EErrorPage page]). split; [simpl; now rewrite app_nil_r|].
      intros target Hin. now apply elem_of_nil in Hin.
Qed.

(** X22. Under stable filters every listing the driver returns can be
    traced: the URL stored in it was requested during the run, and the
    listing is what [scrape_listing] returns for that URL. *)
Theorem returned_listings_were_requested
    (fs : gmap string value) (max_pages : Z) :
  stable fs ->
  exists ls t,
    scrape_listings requests_get repr_container set_iter max_pages fs = (Ok ls, fs, t)
    /\ forall l, In l ls ->
         url l ∈ gets t /\ accepted requests_get fs (url l) = Some l.
Proof.
  intros Hst.
  destruct (page_loop_seen (Z.to_nat max_pages) 1 [] fs Hst) as (seen & t & Hrun & Hsub).
  exists (omap (accepted requests_get fs) seen), t. split; [exact Hrun|].
  intros l Hin. apply list_elem_of_In, list_elem_of_omap in Hin as (target & Hseen & Hacc).
  assert (Hurl : url l = target).
  { destruct (result_satisfies_flags _ _ _ _ Hacc) as (_ & _ & page & fs' & t' & Hc & _).
    apply check_and_extract_Some in Hc
      as ((t0 & p & b & ba & sq & ad & de & _ & _ & _ & _ & _ & _ & _ & ->) & _).
    reflexivity. }
  rewrite Hurl. split; [now apply Hsub | exact Hacc].
Qed.

End Provenance.

Lemma returned_listings_were_requested_witness :
  exists ls t,
    scrape_listings (demo_site demo_page2) no_repr elements 2 only_33131
    = (Ok ls, only_33131, t)
    /\ forall l, In l ls -> url l ∈ gets t.
Proof.
  destruct (returned_listings_were_requested (demo_site demo_page2) no_repr elements
              only_33131 2 stable_only_33131) as (ls & t & Hrun & Hall).
  exists ls, t. split; [exact Hrun|]. intros l Hin. exact (proj1 (Hall l Hin)).
Defined.
